(** * CEAP Componenti API: the degradable persistence gateway

    A shallow embedding of [main.py]: the three lazy database helpers
    ([_db_available], [_create_document], [_get_documents]), the attachment
    helper [_save_uploaded_file], the three submission endpoints, the
    catalogue query and the diagnostic endpoint.

    The module [database] is not part of the sources: it is the external
    collaborator that every helper imports lazily.  It is represented by a
    record of import outcomes, and every theorem quantifies over it. *)

From Stdlib Require Import ZArith String Ascii List DecimalString.
From stdpp Require Import base option list gmap strings fin_maps.

Open Scope string_scope.
Open Scope list_scope.
Open Scope Z_scope.

(** ** Python text

    Keys, identifiers and form fields are byte strings ([string]).  Where the
    source counts characters (the diagnostic messages), a Python [str] is a
    sequence of code points. *)

Definition pystr := list N.

Definition text (s : string) : pystr :=
  map N_of_ascii (list_ascii_of_string s).

(** [s[:n]] and [l[:n]] for an integer [n]: a negative bound counts from the
    end of the sequence. *)
Definition slice_upto {A : Type} (n : Z) (l : list A) : list A :=
  if 0 <=? n then take (Z.to_nat n) l
  else take (Z.to_nat (Z.of_nat (length l) + n)) l.

Definition decimal (z : Z) : string := NilZero.string_of_int (Z.to_int z).

(** ** Exceptions and the effect monad

    The exceptions are those deriving from [Exception], which is what every
    [except Exception] clause of the program catches. *)

Inductive exn :=
  | Exception (msg : pystr)
  | HTTPException (status_code : Z) (detail : string).

(** [str(e)] *)
Definition str_exn (e : exn) : pystr :=
  match e with
  | Exception msg => msg
  | HTTPException c d => text (decimal c +:+ ": " +:+ d)
  end.

Inductive outcome (A : Type) :=
  | Ok (a : A)
  | Raise (e : exn).
Arguments Ok {A} a.
Arguments Raise {A} e.

(** A computation over a mutable state [S] that returns or raises; the state
    reached when an exception is raised is kept, as in Python. *)
Definition SE (S A : Type) : Type := S → outcome A * S.

#[global] Instance SE_ret {S} : MRet (SE S) := λ A a s, (Ok a, s).
#[global] Instance SE_bind {S} : MBind (SE S) := λ A B f m s,
  match m s with
  | (Ok a, s') => f a s'
  | (Raise e, s') => (Raise e, s')
  end.

Definition raise {S A} (e : exn) : SE S A := λ s, (Raise e, s).

Definition lift {S A} (o : outcome A) : SE S A := λ s, (o, s).

Definition modify {S} (f : S → S) : SE S unit := λ s, (Ok tt, f s).

(** [try: body  except Exception as e: handler e] *)
Definition try_except {S A} (body : SE S A) (handler : exn → SE S A) : SE S A :=
  λ s, match body s with
       | (Ok a, s') => (Ok a, s')
       | (Raise e, s') => handler e s'
       end.

(** ** Documents *)

(** An IEEE-754 double, carried by its bit pattern: the program never
    computes with it. *)
Variant pyfloat := Float64 (bits : Z).

#[warnings="-register-all"] Inductive value :=
  | VNone
  | VBool (b : bool)
  | VInt (z : Z)
  | VFloat (f : pyfloat)
  | VStr (s : string)
  | VBytes (b : list Byte.byte)
  | VList (l : list value)
  | VDict (d : list (string * value)).

(** Insertion-ordered dictionaries with string keys. *)
Definition dict := list (string * value).

Fixpoint dict_get (k : string) (d : dict) : option value :=
  match d with
  | [] => None
  | (k', v) :: d' => if String.eqb k k' then Some v else dict_get k d'
  end.

(** [d[k] = v]: overwrite in place, or append. *)
Fixpoint dict_set (k : string) (v : value) (d : dict) : dict :=
  match d with
  | [] => [(k, v)]
  | (k', v') :: d' =>
      if String.eqb k k' then (k, v) :: d' else (k', v') :: dict_set k v d'
  end.

Definition opt_str (o : option string) : value :=
  match o with Some s => VStr s | None => VNone end.

Definition opt_int (o : option Z) : value :=
  match o with Some z => VInt z | None => VNone end.

Definition opt_float (o : option pyfloat) : value :=
  match o with Some f => VFloat f | None => VNone end.

(** Truthiness of an [Optional[str]]. *)
Definition truthy (o : option string) : bool :=
  match o with
  | Some s => negb (String.eqb s "")
  | None => false
  end.

(** ** Catalogue documents

    A [componentitem] document is a flat mapping; the store adds [_id]. *)

Inductive field :=
  | FNone
  | FInt (z : Z)
  | FStr (s : string)
  | FOid (hex : string).

(** [str(v)] *)
Definition py_str (v : field) : string :=
  match v with
  | FNone => "None"
  | FInt z => decimal z
  | FStr s => s
  | FOid hex => hex
  end.

(** What [get_documents] may hand back: a sequence of documents, a single
    mapping, or [None]. *)
Inductive query_result :=
  | QList (docs : list (gmap string field))
  | QDict (d : gmap string field)
  | QNone.

(** ** The external [database] module *)

Inductive event :=
  | CreateDocument (collection : string) (data : dict)
  | GetDocuments (collection : string) (filt : gmap string string) (limit : Z).

Inductive attribute :=
  | AttrMissing
  | AttrValue (v : pystr)
  | AttrRaises (e : exn).

Record handle := {
  db_name : attribute;
  list_collection_names : outcome (list pystr);
}.

(** Each [from database import x] either raises or binds [x].  The two
    functions answer from the calls made so far. *)
Record Database := {
  import_db : outcome (option handle);
  import_create_document :
    outcome (list event → string → dict → outcome (option string));
  import_get_documents :
    outcome (list event → string → gmap string string → Z → outcome query_result);
}.

(** The store-call log is the state threaded through a request. *)
Definition M (A : Type) : Type := SE (list event) A.

(** A call that reaches the store: answered from the log, then logged. *)
Definition call {A} (f : list event → outcome A) (ev : event) : M A :=
  λ log, (f log, log ++ [ev]).

Section Helpers.
Variable D : Database.

Definition _db_available : M bool :=
  try_except
    (db ← lift (import_db D);
     mret (bool_decide (db ≠ None)))
    (λ _, mret false).

Definition _create_document (collection : string) (data : dict)
  : M (option string) :=
  try_except
    (create_document ← lift (import_create_document D);
     call (λ log, create_document log collection data)
          (CreateDocument collection data))
    (λ _, mret None).

Definition _get_documents (collection : string) (filt : gmap string string)
    (limit : Z) : M query_result :=
  try_except
    (get_documents ← lift (import_get_documents D);
     call (λ log, get_documents log collection filt limit)
          (GetDocuments collection filt limit))
    (λ _, mret (QList [])).

End Helpers.

(** ** Request models *)

Record UploadFile := {
  filename : option string;
  content_type : option string;
  (** the size announced by the client *)
  size : option Z;
  (** what [file.file.read()] returns *)
  file : list Byte.byte;
}.

Record LeadItem := {
  code : string;
  quantity : option Z;
  brand_preference : option string;
  target_price : option pyfloat;
  notes : option string;
}.

Definition LeadItem_dump (it : LeadItem) : value :=
  VDict [("code", VStr (code it));
         ("quantity", opt_int (quantity it));
         ("brand_preference", opt_str (brand_preference it));
         ("target_price", opt_float (target_price it));
         ("notes", opt_str (notes it))].

(** [LeadRequest(...).model_dump()] *)
Definition LeadRequest_dump (company name email : string)
    (phone : option string) (items : list LeadItem) (message : option string)
    (source : string) : dict :=
  [("company", VStr company); ("name", VStr name); ("email", VStr email);
   ("phone", opt_str phone); ("items", VList (LeadItem_dump <$> items));
   ("message", opt_str message); ("source", VStr source)].

(** [ContactRequest(...).model_dump()] *)
Definition ContactRequest_dump (company name email : string)
    (phone : option string) (topic message : string) : dict :=
  [("company", VStr company); ("name", VStr name); ("email", VStr email);
   ("phone", opt_str phone); ("topic", VStr topic); ("message", VStr message)].

Record ChatbotLead := {
  cb_company : option string;
  cb_name : option string;
  cb_email : option string;
  cb_phone : option string;
  cb_message : option string;
  cb_items : list LeadItem;
  cb_channel : string;
}.

Definition ChatbotLead_dump (p : ChatbotLead) : dict :=
  [("company", opt_str (cb_company p)); ("name", opt_str (cb_name p));
   ("email", opt_str (cb_email p)); ("phone", opt_str (cb_phone p));
   ("message", opt_str (cb_message p));
   ("items", VList (LeadItem_dump <$> cb_items p));
   ("channel", VStr (cb_channel p))].

Record LeadForm := {
  lf_company : string;
  lf_name : string;
  lf_email : string;
  lf_phone : option string;
  lf_message : option string;
  lf_items_json : option string;
  lf_file : option UploadFile;
}.

Record ContactForm := {
  cf_company : string;
  cf_name : string;
  cf_email : string;
  cf_phone : option string;
  cf_topic : option string;
  cf_message : string;
  cf_file : option UploadFile;
}.

Definition warning_text : string :=
  "DB non configurato: richiesta ricevuta ma non salvata.".

(** [{"ok": True, "id": _id}] *)
Definition saved (_id : string) : dict :=
  [("ok", VBool true); ("id", VStr _id)].

(** [{"ok": True, "id": None, "warning": ...}] *)
Definition accepted_unsaved : dict :=
  [("ok", VBool true); ("id", VNone); ("warning", VStr warning_text)].

Section Endpoints.
Variable D : Database.
(** [json.loads], then a [LeadItem] built from every entry: parsing and
    validation by the libraries, which may raise. *)
Variable load_items : string → outcome (list LeadItem).

Definition _save_uploaded_file (f : UploadFile) (bucket : string) : M dict :=
  let content := file f in
  let doc : dict :=
    [("bucket", VStr bucket);
     ("filename", opt_str (filename f));
     ("content_type", opt_str (content_type f));
     ("size", VInt (Z.of_nat (length content)));
     ("blob", VBytes content)] in
  file_id ← _create_document D "file" doc;
  mret [("file_id", opt_str file_id);
        ("filename", opt_str (filename f));
        ("size", VInt (Z.of_nat (length content)))].

(** [file_meta = None; if file is not None: file_meta = _save_uploaded_file(...)] *)
Definition attach (f : option UploadFile) (bucket : string) : M (option dict) :=
  match f with
  | Some f => file_meta ← _save_uploaded_file f bucket; mret (Some file_meta)
  | None => mret None
  end.

(** [if file_meta: doc["attachment"] = file_meta] *)
Definition with_attachment (file_meta : option dict) (doc : dict) : dict :=
  match file_meta with
  | Some ((_ :: _) as m) => dict_set "attachment" (VDict m) doc
  | _ => doc
  end.

(** [_id is None and _db_available() is False]; the probe runs only when
    there is no identifier. *)
Definition unsaved_and_unavailable (_id : option string) : M bool :=
  match _id with
  | None => available ← _db_available D; mret (negb available)
  | Some _ => mret false
  end.

Definition create_lead (q : LeadForm) : M dict :=
  items ← (if truthy (lf_items_json q)
           then lift (load_items (default "" (lf_items_json q)))
           else mret []);
  file_meta ← attach (lf_file q) "leads";
  let doc := LeadRequest_dump (lf_company q) (lf_name q) (lf_email q)
               (lf_phone q) items (lf_message q) "webform" in
  let doc := with_attachment file_meta doc in
  _id ← _create_document D "lead" doc;
  degraded ← unsaved_and_unavailable _id;
  if degraded : bool then mret accepted_unsaved
  else match _id with
       | None => raise (HTTPException 500 "Errore nel salvataggio della richiesta")
       | Some i => mret (saved i)
       end.

Definition create_contact (q : ContactForm) : M dict :=
  file_meta ← attach (cf_file q) "contacts";
  (* [ContactRequest] wants a [str] topic *)
  topic ← match cf_topic q with
          | Some t => mret t
          | None => raise (Exception (text "ValidationError"))
          end;
  let doc := ContactRequest_dump (cf_company q) (cf_name q) (cf_email q)
               (cf_phone q) topic (cf_message q) in
  let doc := with_attachment file_meta doc in
  _id ← _create_document D "contactmessage" doc;
  degraded ← unsaved_and_unavailable _id;
  if degraded : bool then mret accepted_unsaved
  else match _id with
       | None => raise (HTTPException 500 "Errore nel salvataggio del messaggio")
       | Some i => mret (saved i)
       end.

Definition chatbot_lead (payload : ChatbotLead) : M dict :=
  let doc := ChatbotLead_dump payload in
  _id ← _create_document D "lead" doc;
  degraded ← unsaved_and_unavailable _id;
  if degraded : bool then mret accepted_unsaved
  else match _id with
       | None => raise (HTTPException 500 "Errore nel salvataggio della richiesta")
       | Some i => mret (saved i)
       end.

End Endpoints.

(** ** The catalogue query *)

(** One entry of the built-in demo list. *)
Definition component (code brand type mount package notes : string)
  : gmap string field :=
  list_to_map [("code", FStr code); ("brand", FStr brand); ("type", FStr type);
               ("mount", FStr mount); ("package", FStr package);
               ("notes", FStr notes)].

Definition demo : list (gmap string field) :=
  [component "BSS138" "ON Semi" "MOSFET" "SMD" "SOT-23" "N-MOSFET 50V";
   component "LM358" "Texas Instruments" "IC" "PTH" "DIP-8" "Dual op-amp";
   component "ATmega328P" "Microchip" "Microcontrollore" "SMD" "TQFP-32" "8-bit MCU";
   component "1N4148" "Vishay" "Diodo" "PTH" "DO-35" "Small signal diode";
   component "FUS-1206-1A" "Littelfuse" "Fusibile" "SMD" "1206" "Fuse 1A"].

(** [if v: filt[k] = v] *)
Definition filter_on (k : string) (v : option string)
    (filt : gmap string string) : gmap string string :=
  if truthy v then <[k := default "" v]> filt else filt.

(** [not items] *)
Definition py_not (items : query_result) : bool :=
  match items with
  | QList docs => bool_decide (docs = [])
  | QDict d => bool_decide (d = ∅)
  | QNone => true
  end.

(** [isinstance(items, dict)] *)
Definition is_dict (items : query_result) : bool :=
  match items with QDict _ => true | _ => false end.

(** The body of the [for] loop, on one document. *)
Definition publish_id (it : gmap string field) : gmap string field :=
  match it !! "_id" with
  | Some v => delete "_id" (<["id" := FStr (py_str v)]> it)
  | None => it
  end.

Record Query := {
  q_type : option string;
  q_mount : option string;
  q_package : option string;
  q_brand : option string;
  q_limit : Z;
}.

(** The filter assembled by [list_components]. *)
Definition query_filter (q : Query) : gmap string string :=
  let filt := ∅ in
  let filt := filter_on "type" (q_type q) filt in
  let filt := filter_on "mount" (q_mount q) filt in
  let filt := filter_on "package" (q_package q) filt in
  let filt := filter_on "brand" (q_brand q) filt in
  filt.

Section Catalogue.
Variable D : Database.

(** The answer is [{"items": ...}]; the list is what is returned here. *)
Definition list_components (q : Query) : M (list (gmap string field)) :=
  let filt := query_filter q in
  let limit := q_limit q in
  items ← _get_documents D "componentitem" filt limit;
  if py_not items || is_dict items then
    mret (slice_upto limit demo)
  else
    match items with
    | QList docs => mret (slice_upto limit (publish_id <$> docs))
    | QDict _ | QNone => raise (Exception (text "TypeError"))
    end.

End Catalogue.

(** ** The diagnostic endpoint *)

Definition check_mark : pystr := [0x2705%N].
Definition cross_mark : pystr := [0x274C%N].
Definition warning_sign : pystr := [0x26A0%N; 0xFE0F%N].

Record Diagnostics := {
  backend : pystr;
  database : pystr;
  database_url : option pystr;
  database_name : option pystr;
  connection_status : pystr;
  collections : list pystr;
}.

Definition set_database (v : pystr) (r : Diagnostics) : Diagnostics :=
  {| backend := backend r; database := v; database_url := database_url r;
     database_name := database_name r;
     connection_status := connection_status r; collections := collections r |}.

Definition set_database_url (v : pystr) (r : Diagnostics) : Diagnostics :=
  {| backend := backend r; database := database r; database_url := Some v;
     database_name := database_name r;
     connection_status := connection_status r; collections := collections r |}.

Definition set_database_name (v : pystr) (r : Diagnostics) : Diagnostics :=
  {| backend := backend r; database := database r;
     database_url := database_url r; database_name := Some v;
     connection_status := connection_status r; collections := collections r |}.

Definition set_connection_status (v : pystr) (r : Diagnostics) : Diagnostics :=
  {| backend := backend r; database := database r;
     database_url := database_url r; database_name := database_name r;
     connection_status := v; collections := collections r |}.

Definition set_collections (v : list pystr) (r : Diagnostics) : Diagnostics :=
  {| backend := backend r; database := database r;
     database_url := database_url r; database_name := database_name r;
     connection_status := connection_status r; collections := v |}.

(** [hasattr(db, 'name')]: a missing attribute gives [False], any other
    failure of the lookup propagates. *)
Definition hasattr_name {S} (db : handle) : SE S bool :=
  match db_name db with
  | AttrMissing => mret false
  | AttrValue _ => mret true
  | AttrRaises e => raise e
  end.

(** [db.name] *)
Definition getattr_name {S} (db : handle) : SE S pystr :=
  match db_name db with
  | AttrMissing => raise (Exception (text "AttributeError"))
  | AttrValue v => mret v
  | AttrRaises e => raise e
  end.

Section Diagnostic.
Variable D : Database.
(** [os.getenv] *)
Variable getenv : string → option string.

Definition initial_response : Diagnostics :=
  {| backend := check_mark ++ text " Running";
     database := cross_mark ++ text " Not Available";
     database_url := None;
     database_name := None;
     connection_status := text "Not Connected";
     collections := [] |}.

(** The statements of [test_database] after the initialisation, acting on
    the local [response]. *)
Definition test_database_body : SE Diagnostics unit :=
  try_except
    (db ← lift (import_db D);
     match db with
     | Some db =>
         modify (set_database (check_mark ++ text " Available"));;
         modify (set_database_url (check_mark ++ text " Configured"));;
         named ← hasattr_name db;
         name ← (if named : bool then getattr_name db
                 else mret (check_mark ++ text " Connected"));
         modify (set_database_name name);;
         modify (set_connection_status (text "Connected"));;
         try_except
           (names ← lift (list_collection_names db);
            modify (set_collections (slice_upto 10 names));;
            modify (set_database (check_mark ++ text " Connected & Working")))
           (λ e, modify (set_database
                           (warning_sign ++ text "  Connected but Error: "
                              ++ slice_upto 50 (str_exn e))))
     | None =>
         modify (set_database
                   (warning_sign ++ text "  Available but not initialized"))
     end)
    (λ e, modify (set_database
                    (cross_mark ++ text " Error: " ++ slice_upto 50 (str_exn e))));;
  modify (set_database_url
            (if truthy (getenv "DATABASE_URL") then check_mark ++ text " Set"
             else cross_mark ++ text " Not Set"));;
  modify (set_database_name
            (if truthy (getenv "DATABASE_NAME") then check_mark ++ text " Set"
             else cross_mark ++ text " Not Set")).

(** The request either yields the response or fails with an exception. *)
Definition test_database : outcome Diagnostics :=
  match test_database_body initial_response with
  | (Ok _, response) => Ok response
  | (Raise e, _) => Raise e
  end.

End Diagnostic.

(** ** The submission endpoints as one family *)

Inductive Submission :=
  | LeadSubmission (q : LeadForm)
  | ContactSubmission (q : ContactForm)
  | ChatbotSubmission (payload : ChatbotLead).

Section Submissions.
Variable D : Database.
Variable load_items : string → outcome (list LeadItem).

(** The endpoint serving a submission. *)
Definition respond (s : Submission) : M dict :=
  match s with
  | LeadSubmission q => create_lead D load_items q
  | ContactSubmission q => create_contact D q
  | ChatbotSubmission payload => chatbot_lead D payload
  end.

(** The statements of the endpoint that come before its document write:
    they yield the collection and the document handed to the writer. *)
Definition prepare (s : Submission) : M (string * dict) :=
  match s with
  | LeadSubmission q =>
      items ← (if truthy (lf_items_json q)
               then lift (load_items (default "" (lf_items_json q)))
               else mret []);
      file_meta ← attach D (lf_file q) "leads";
      mret ("lead",
            with_attachment file_meta
              (LeadRequest_dump (lf_company q) (lf_name q) (lf_email q)
                 (lf_phone q) items (lf_message q) "webform"))
  | ContactSubmission q =>
      file_meta ← attach D (cf_file q) "contacts";
      topic ← match cf_topic q with
              | Some t => mret t
              | None => raise (Exception (text "ValidationError"))
              end;
      mret ("contactmessage",
            with_attachment file_meta
              (ContactRequest_dump (cf_company q) (cf_name q) (cf_email q)
                 (cf_phone q) topic (cf_message q)))
  | ChatbotSubmission payload => mret ("lead", ChatbotLead_dump payload)
  end.

(** The [detail] of the error raised by the endpoint. *)
Definition failure_detail (s : Submission) : string :=
  match s with
  | ContactSubmission _ => "Errore nel salvataggio del messaggio"
  | _ => "Errore nel salvataggio della richiesta"
  end.

End Submissions.

(** ** Sample deployments *)

Definition module_not_found : exn :=
  Exception (text "No module named 'database'").

(** No [database] module at all. *)
Definition no_database : Database :=
  {| import_db := Raise module_not_found;
     import_create_document := Raise module_not_found;
     import_get_documents := Raise module_not_found |}.

Definition sample_handle : handle :=
  {| db_name := AttrValue (text "ceap");
     list_collection_names := Ok [text "lead"; text "componentitem"] |}.

Definition stored_component : gmap string field :=
  <["_id" := FOid "65f0c0ffee"]>
    (component "NE555" "Texas Instruments" "IC" "PTH" "DIP-8" "Timer").

(** A store that works: identifiers number the calls. *)
Definition working_database : Database :=
  {| import_db := Ok (Some sample_handle);
     import_create_document :=
       Ok (λ log _ _, Ok (Some ("doc" +:+ decimal (Z.of_nat (length log)))));
     import_get_documents :=
       Ok (λ _ _ _ _, Ok (QList [stored_component; stored_component; stored_component])) |}.

Definition timeout_error : exn :=
  Exception (text "localhost:27017: [Errno 111] Connection refused, Timeout: 5.0s, Topology Description: <TopologyDescription>").

(** A store whose handle exists while every operation on it fails. *)
Definition failing_database : Database :=
  {| import_db :=
       Ok (Some {| db_name := AttrValue (text "ceap");
                   list_collection_names := Raise timeout_error |});
     import_create_document := Ok (λ _ _ _, Raise timeout_error);
     import_get_documents := Ok (λ _ _ _ _, Raise timeout_error) |}.

(** A module whose handle was never initialised. *)
Definition uninitialised_database : Database :=
  {| import_db := Ok None;
     import_create_document := Ok (λ _ _ _, Ok None);
     import_get_documents := Ok (λ _ _ _ _, Ok (QDict ∅)) |}.

Definition no_items : string → outcome (list LeadItem) := λ _, Ok [].

Definition sample_upload : UploadFile :=
  {| filename := Some "bom.csv";
     content_type := Some "text/csv";
     size := Some 4096;
     file := [Byte.x63; Byte.x6f; Byte.x64; Byte.x65; Byte.x0a] |}.

Definition sample_chat : ChatbotLead :=
  {| cb_company := None; cb_name := Some "Ada"; cb_email := None;
     cb_phone := None; cb_message := Some "LM358 x 100"; cb_items := [];
     cb_channel := "chatbot" |}.

Definition sample_lead : LeadForm :=
  {| lf_company := "ACME"; lf_name := "Ada"; lf_email := "ada@acme.example";
     lf_phone := None; lf_message := None; lf_items_json := None;
     lf_file := Some sample_upload |}.

Definition sample_contact : ContactForm :=
  {| cf_company := "ACME"; cf_name := "Ada"; cf_email := "ada@acme.example";
     cf_phone := None; cf_topic := Some "Generale"; cf_message := "Ciao";
     cf_file := None |}.

Definition any_query (limit : Z) : Query :=
  {| q_type := None; q_mount := None; q_package := None; q_brand := None;
     q_limit := limit |}.

Definition smd_query : Query :=
  {| q_type := Some ""; q_mount := Some "SMD"; q_package := None;
     q_brand := Some "Vishay"; q_limit := 2 |}.

(** ** Statements under test *)

(** The attachment step read as a pure transformation: the store log is
    unchanged and the summary carries a null identifier. *)
Definition embeds_without_store (D : Database) (f : UploadFile)
    (bucket : string) (log : list event) : Prop :=
  ∃ summary,
    _save_uploaded_file D f bucket log = (Ok summary, log) ∧
    dict_get "file_id" summary = Some VNone.

(** The value the caller supplied for a filter key, if any. *)
Definition supplied (q : Query) (k : string) : option string :=
  if bool_decide (k = "brand") then q_brand q
  else if bool_decide (k = "package") then q_package q
  else if bool_decide (k = "mount") then q_mount q
  else if bool_decide (k = "type") then q_type q
  else None.

(** ** Views on requests and on the store log *)

(** The upload carried by a submission, with the bucket its endpoint uses. *)
Definition upload_of (s : Submission) : option (UploadFile * string) :=
  match s with
  | LeadSubmission q => (λ f, (f, "leads")) <$> lf_file q
  | ContactSubmission q => (λ f, (f, "contacts")) <$> cf_file q
  | ChatbotSubmission _ => None
  end.

(** The collections written to, in call order. *)
Definition written_collections (log : list event) : list string :=
  omap (λ ev, match ev with
              | CreateDocument c _ => Some c
              | GetDocuments _ _ _ => None
              end) log.

(** ** The normalisation loop on shared objects

    [get_documents] returns references to dictionaries, and the same object
    may sit at several positions of the list.  The loop of [list_components]
    updates each object where it lives. *)

(** The [for it in items] loop over references into the object heap. *)
Definition publish_in_place (refs : list nat)
    (heap : gmap nat (gmap string field)) : gmap nat (gmap string field) :=
  foldl (λ h r, alter publish_id r h) heap refs.

(** The list as the response serialises it: every reference read off. *)
Definition read_refs (heap : gmap nat (gmap string field)) (refs : list nat)
  : list (option (gmap string field)) :=
  (λ r, heap !! r) <$> refs.

(** The dictionary literals of [_save_uploaded_file], named. *)
Definition file_document (f : UploadFile) (bucket : string) : dict :=
  [("bucket", VStr bucket);
   ("filename", opt_str (filename f));
   ("content_type", opt_str (content_type f));
   ("size", VInt (Z.of_nat (length (file f))));
   ("blob", VBytes (file f))].

Definition file_summary (file_id : option string) (f : UploadFile) : dict :=
  [("file_id", opt_str file_id);
   ("filename", opt_str (filename f));
   ("size", VInt (Z.of_nat (length (file f))))].

(** The writes of the attachment step, when the writer can be imported. *)
Definition upload_events (D : Database) (s : Submission) : list event :=
  match import_create_document D, upload_of s with
  | Ok _, Some (f, bucket) => [CreateDocument "file" (file_document f bucket)]
  | _, _ => []
  end.

(** A loader standing for malformed JSON. *)
Definition rejecting_items : string → outcome (list LeadItem) :=
  λ _, Raise (Exception (text "Expecting value: line 1 column 2 (char 1)")).

Definition malformed_lead : LeadForm :=
  {| lf_company := "ACME"; lf_name := "Ada"; lf_email := "ada@acme.example";
     lf_phone := None; lf_message := None; lf_items_json := Some "[";
     lf_file := Some sample_upload |}.

Definition pth_query : Query :=
  {| q_type := None; q_mount := Some "PTH"; q_package := None;
     q_brand := None; q_limit := 1 |}.

(** A stored record without [_id] and with its own [id]. *)
Definition plain_component : gmap string field :=
  <["id" := FStr "own-id"]> (component "NE555" "TI" "IC" "PTH" "DIP-8" "Timer").

(** A store answering every query with the given documents. *)
Definition serving (docs : list (gmap string field)) : Database :=
  {| import_db := Ok (Some sample_handle);
     import_create_document := Ok (λ _ _ _, Ok None);
     import_get_documents := Ok (λ _ _ _ _, Ok (QList docs)) |}.

(** A handle whose [name] look-up fails with something other than
    [AttributeError]. *)
Definition broken_name_database : Database :=
  {| import_db :=
       Ok (Some {| db_name := AttrRaises timeout_error;
                   list_collection_names := Ok [text "lead"] |});
     import_create_document := Ok (λ _ _ _, Ok None);
     import_get_documents := Ok (λ _ _ _ _, Ok (QList [])) |}.

(** Length of a diagnostic message. *)
Definition longest_report : nat := 75.

(** * Properties *)

(** ** Sequences and dictionaries *)

Lemma slice_upto_nonneg {A} (n : Z) (l : list A) :
  0 ≤ n → slice_upto n l = take (Z.to_nat n) l.
Proof.
  intros Hn. unfold slice_upto.
  destruct (Z.leb_spec 0 n) as [_|Hlt]; [reflexivity | lia].
Qed.

Lemma slice_upto_take {A} (n : Z) (l : list A) :
  ∃ m, slice_upto n l = take m l.
Proof. unfold slice_upto. destruct (0 <=? n); eauto. Qed.

Lemma slice_upto_length_nonneg {A} (n : Z) (l : list A) :
  0 ≤ n → Z.of_nat (length (slice_upto n l)) ≤ n.
Proof.
  intros Hn. rewrite slice_upto_nonneg by done.
  rewrite length_take. lia.
Qed.

Lemma slice_upto_lookup {A} (n : Z) (l : list A) (i : nat) (x : A) :
  slice_upto n l !! i = Some x → l !! i = Some x.
Proof.
  destruct (slice_upto_take n l) as [m ->].
  intros H. destruct (decide (i < m)%nat) as [Hi|Hi].
  - by rewrite lookup_take_lt in H.
  - rewrite lookup_take_ge in H by lia. discriminate.
Qed.

Lemma slice_upto_elem_of {A} (n : Z) (l : list A) (x : A) :
  x ∈ slice_upto n l → x ∈ l.
Proof.
  intros [i Hi]%list_elem_of_lookup.
  apply list_elem_of_lookup. exists i. by eapply slice_upto_lookup.
Qed.

Lemma dict_get_set_eq (k : string) (v : value) (d : dict) :
  dict_get k (dict_set k v d) = Some v.
Proof.
  induction d as [|[k' v'] d IH]; simpl.
  - by rewrite String.eqb_refl.
  - destruct (String.eqb k k') eqn:E; simpl.
    + by rewrite String.eqb_refl.
    + by rewrite E.
Qed.

(** ** The lazy helpers *)

(** The writer never raises: it yields an identifier or [None]. *)
Lemma _create_document_total (D : Database) (c : string) (d : dict)
    (log : list event) :
  ∃ _id log', _create_document D c d log = (Ok _id, log').
Proof.
  unfold _create_document, try_except, mbind, SE_bind, lift, call, mret, SE_ret.
  destruct (import_create_document D) as [f|e]; [|eauto].
  destruct (f log c d); eauto.
Qed.

(** The reader never raises either. *)
Lemma _get_documents_total (D : Database) (c : string)
    (filt : gmap string string) (limit : Z) (log : list event) :
  ∃ items log', _get_documents D c filt limit log = (Ok items, log').
Proof.
  unfold _get_documents, try_except, mbind, SE_bind, lift, call, mret, SE_ret.
  destruct (import_get_documents D) as [f|e]; [|eauto].
  destruct (f log c filt limit); eauto.
Qed.

(** C9: the availability probe returns a boolean in every state of the
    [database] module, never raises and leaves the store untouched; it
    answers [True] exactly when the import yields a handle other than [None],
    so a failed import and an unconstructed handle both give [False]. *)
Theorem db_available_total (D : Database) (log : list event) :
  ∃ b : bool,
    _db_available D log = (Ok b, log) ∧
    (b = true ↔ ∃ h, import_db D = Ok (Some h)) ∧
    (∀ e, import_db D = Raise e → b = false) ∧
    (import_db D = Ok None → b = false).
Proof.
  unfold _db_available, try_except, mbind, SE_bind, lift, mret, SE_ret.
  destruct (import_db D) as [[h|]|e]; simpl.
  - exists true. repeat split; eauto; intros; discriminate.
  - exists false. repeat split; try done. intros [h Hh]. discriminate.
  - exists false. repeat split; try done. intros [h Hh]. discriminate.
Qed.

Lemma db_available_total_witness :
  _db_available no_database [] = (Ok false, []) ∧
  _db_available uninitialised_database [] = (Ok false, []) ∧
  _db_available working_database [] = (Ok true, []).
Proof.
  split; [|split].
  - destruct (db_available_total no_database [])
      as (b & Hrun & _ & Hraise & _).
    rewrite Hrun. f_equal. f_equal. exact (Hraise module_not_found eq_refl).
  - destruct (db_available_total uninitialised_database [])
      as (b & Hrun & _ & _ & Hnone).
    rewrite Hrun. f_equal. f_equal. exact (Hnone eq_refl).
  - destruct (db_available_total working_database [])
      as (b & Hrun & Hsome & _).
    rewrite Hrun. f_equal. f_equal. apply Hsome. by exists sample_handle.
Defined.

(** ** The three outcomes of a submission *)

Ltac run :=
  unfold try_except, mbind, SE_bind, lift, call, raise, modify, mret, SE_ret
    in *.

(** Every endpoint runs its preparation, then the writer, then decides. *)
Lemma respond_unfold (D : Database) (load_items : string → outcome (list LeadItem))
    (s : Submission) (log : list event) :
  respond D load_items s log =
    match prepare D load_items s log with
    | (Ok (coll, doc), log1) =>
        match _create_document D coll doc log1 with
        | (Ok (Some i), log2) => (Ok (saved i), log2)
        | (Ok None, log2) =>
            match _db_available D log2 with
            | (Ok false, log3) => (Ok accepted_unsaved, log3)
            | (Ok true, log3) =>
                (Raise (HTTPException 500 (failure_detail s)), log3)
            | (Raise e, log3) => (Raise e, log3)
            end
        | (Raise e, log2) => (Raise e, log2)
        end
    | (Raise e, log1) => (Raise e, log1)
    end.
Proof.
  destruct s as [q|q|p]; simpl;
    unfold create_lead, create_contact, chatbot_lead, unsaved_and_unavailable.
  - run.
    destruct (if truthy (lf_items_json q) then _ else _) as [[items|e] l0];
      [|reflexivity].
    destruct (attach D (lf_file q) "leads" l0) as [[m|e] l1]; [|reflexivity].
    destruct (_create_document D _ _ l1) as [[[i|]|e] l2]; try reflexivity.
    destruct (_db_available D l2) as [[[|]|e] l3]; reflexivity.
  - run.
    destruct (attach D (cf_file q) "contacts" log) as [[m|e] l1]; [|reflexivity].
    destruct (cf_topic q) as [t|]; [|reflexivity].
    destruct (_create_document D _ _ l1) as [[[i|]|e] l2]; try reflexivity.
    destruct (_db_available D l2) as [[[|]|e] l3]; reflexivity.
  - run.
    destruct (_create_document D _ _ log) as [[[i|]|e] l2]; try reflexivity.
    destruct (_db_available D l2) as [[[|]|e] l3]; reflexivity.
Qed.

(** C1: for each of the three submission endpoints, once the document has
    been prepared and handed to the writer: an identifier gives a success
    carrying that identifier and no warning; no identifier with the probe
    answering [False] gives a success with a null identifier and a warning
    string; no identifier with the probe answering [True] gives an HTTP 500
    error. *)
Theorem submission_three_outcomes (D : Database)
    (load_items : string → outcome (list LeadItem)) (s : Submission)
    (log log1 log2 : list event) (coll : string) (doc : dict)
    (_id : option string) :
  prepare D load_items s log = (Ok (coll, doc), log1) →
  _create_document D coll doc log1 = (Ok _id, log2) →
  (∀ i, _id = Some i →
     ∃ r, respond D load_items s log = (Ok r, log2) ∧
          dict_get "ok" r = Some (VBool true) ∧
          dict_get "id" r = Some (VStr i) ∧
          dict_get "warning" r = None) ∧
  (∀ log3, _id = None → _db_available D log2 = (Ok false, log3) →
     ∃ r w, respond D load_items s log = (Ok r, log3) ∧
            dict_get "ok" r = Some (VBool true) ∧
            dict_get "id" r = Some VNone ∧
            dict_get "warning" r = Some (VStr w)) ∧
  (∀ log3, _id = None → _db_available D log2 = (Ok true, log3) →
     ∃ detail,
       respond D load_items s log = (Raise (HTTPException 500 detail), log3)).
Proof.
  intros Hprep Hwrite. rewrite respond_unfold, Hprep, Hwrite.
  split; [|split].
  - intros i ->. exists (saved i). by repeat split.
  - intros log3 -> ->. exists accepted_unsaved, warning_text. by repeat split.
  - intros log3 -> ->. by eexists.
Qed.

Lemma submission_three_outcomes_witness :
  (∃ r log', respond working_database no_items (LeadSubmission sample_lead) []
               = (Ok r, log') ∧
             dict_get "id" r = Some (VStr "doc1") ∧
             dict_get "warning" r = None) ∧
  (∃ r w, respond no_database no_items (ChatbotSubmission sample_chat) []
            = (Ok r, []) ∧
          dict_get "id" r = Some VNone ∧
          dict_get "warning" r = Some (VStr w)) ∧
  (∃ detail log',
     respond failing_database no_items (ContactSubmission sample_contact) []
       = (Raise (HTTPException 500 detail), log')).
Proof.
  split; [|split].
  - edestruct (submission_three_outcomes working_database no_items
                 (LeadSubmission sample_lead) []) as (Hsaved & _ & _);
      [reflexivity | reflexivity |].
    destruct (Hsaved "doc1" eq_refl) as (r & Hr & _ & Hid & Hw).
    exists r. eexists. repeat split; [exact Hr | exact Hid | exact Hw].
  - edestruct (submission_three_outcomes no_database no_items
                 (ChatbotSubmission sample_chat) []) as (_ & Hdegraded & _);
      [reflexivity | reflexivity |].
    destruct (Hdegraded [] eq_refl eq_refl) as (r & w & Hr & _ & Hid & Hw).
    exists r, w. repeat split; [exact Hr | exact Hid | exact Hw].
  - edestruct (submission_three_outcomes failing_database no_items
                 (ContactSubmission sample_contact) []) as (_ & _ & Hfailed);
      [reflexivity | reflexivity |].
    destruct (Hfailed _ eq_refl eq_refl) as (detail & Hr).
    exists detail. eexists. exact Hr.
Defined.

(** ** Attachments *)

(** The document that [_save_uploaded_file] hands to the writer. *)
Lemma save_uploaded_file_unfold (D : Database) (f : UploadFile)
    (bucket : string) (log : list event) :
  let doc := [("bucket", VStr bucket);
              ("filename", opt_str (filename f));
              ("content_type", opt_str (content_type f));
              ("size", VInt (Z.of_nat (length (file f))));
              ("blob", VBytes (file f))] in
  ∃ file_id log',
    _create_document D "file" doc log = (Ok file_id, log') ∧
    _save_uploaded_file D f bucket log =
      (Ok [("file_id", opt_str file_id);
           ("filename", opt_str (filename f));
           ("size", VInt (Z.of_nat (length (file f))))], log').
Proof.
  intros doc.
  destruct (_create_document_total D "file" doc log) as (file_id & log' & H).
  exists file_id, log'. split; [exact H|].
  unfold _save_uploaded_file. fold doc.
  unfold mbind at 1. unfold SE_bind. by rewrite H.
Qed.

(** C2, as stated, fails: with a working store the attachment is written to
    the [file] collection on its own and the summary carries the identifier
    of that write. *)
Lemma save_uploaded_file_reaches_store :
  ¬ embeds_without_store working_database sample_upload "leads" [].
Proof.
  intros (summary & Hrun & Hid).
  vm_compute in Hrun. discriminate Hrun.
Qed.

(** C2, amended: the attachment step calls the writer exactly once, for the
    collection [file], with a document holding the bucket, the file name, the
    content type, the byte size and the raw bytes.  When the writer function
    can be imported that call reaches the store; the identifier of the
    summary is the one the writer returned, and is null when the import or
    the write fails, in which first case nothing reaches the store. *)
Theorem save_uploaded_file_writes_file_document (D : Database)
    (f : UploadFile) (bucket : string) (log : list event) :
  ∃ (file_id : option string) (log' : list event) (doc : dict),
    _save_uploaded_file D f bucket log =
      (Ok [("file_id", opt_str file_id);
           ("filename", opt_str (filename f));
           ("size", VInt (Z.of_nat (length (file f))))], log') ∧
    _create_document D "file" doc log = (Ok file_id, log') ∧
    dict_get "bucket" doc = Some (VStr bucket) ∧
    dict_get "filename" doc = Some (opt_str (filename f)) ∧
    dict_get "content_type" doc = Some (opt_str (content_type f)) ∧
    dict_get "size" doc = Some (VInt (Z.of_nat (length (file f)))) ∧
    dict_get "blob" doc = Some (VBytes (file f)) ∧
    match import_create_document D with
    | Ok create_document =>
        log' = log ++ [CreateDocument "file" doc] ∧
        file_id = match create_document log "file" doc with
                  | Ok i => i
                  | Raise _ => None
                  end
    | Raise _ => log' = log ∧ file_id = None
    end.
Proof.
  destruct (save_uploaded_file_unfold D f bucket log)
    as (file_id & log' & Hwrite & Hrun).
  exists file_id, log'. eexists. split; [exact Hrun|].
  split; [exact Hwrite|]. repeat (split; [reflexivity|]).
  revert Hwrite. unfold _create_document. run.
  destruct (import_create_document D) as [create|e].
  - destruct (create log "file" _) as [i|e]; intros [= <- <-]; by split.
  - intros [= <- <-]. by split.
Qed.

(** C7: the [size] of the attachment summary is the number of bytes read
    from the upload, whatever size and content type the client announced, and
    this summary is what the parent document carries under [attachment]. *)
Theorem attachment_size_is_payload_length (D : Database) (f : UploadFile)
    (bucket : string) (log : list event) :
  ∃ (summary : dict) (log' : list event),
    _save_uploaded_file D f bucket log = (Ok summary, log') ∧
    dict_get "size" summary = Some (VInt (Z.of_nat (length (file f)))) ∧
    (∀ parent : dict,
       dict_get "attachment" (with_attachment (Some summary) parent)
         = Some (VDict summary)) ∧
    (∀ (announced : option Z) (ctype : option string),
       ∃ summary',
         fst (_save_uploaded_file D
                {| filename := filename f; content_type := ctype;
                   size := announced; file := file f |} bucket log)
           = Ok summary' ∧
         dict_get "size" summary' = dict_get "size" summary).
Proof.
  destruct (save_uploaded_file_unfold D f bucket log)
    as (file_id & log' & Hwrite & Hrun).
  exists [("file_id", opt_str file_id); ("filename", opt_str (filename f));
          ("size", VInt (Z.of_nat (length (file f))))], log'.
  split; [exact Hrun|]. split; [reflexivity|]. split.
  - intros parent. simpl. apply dict_get_set_eq.
  - intros announced ctype.
    destruct (save_uploaded_file_unfold D
                {| filename := filename f; content_type := ctype;
                   size := announced; file := file f |} bucket log)
      as (file_id' & log'' & _ & Hrun').
    rewrite Hrun'. eexists. split; reflexivity.
Qed.

(** ** The catalogue query *)

Lemma list_components_unfold (D : Database) (q : Query) (log : list event) :
  list_components D q log =
    match _get_documents D "componentitem" (query_filter q) (q_limit q) log with
    | (Ok items, log') =>
        if py_not items || is_dict items
        then (Ok (slice_upto (q_limit q) demo), log')
        else match items with
             | QList docs =>
                 (Ok (slice_upto (q_limit q) (publish_id <$> docs)), log')
             | _ => (Raise (Exception (text "TypeError")), log')
             end
    | (Raise e, log') => (Raise e, log')
    end.
Proof.
  unfold list_components. unfold mbind at 1. unfold SE_bind.
  destruct (_get_documents D _ _ _ log) as [[items|e] log']; [|reflexivity].
  destruct (py_not items || is_dict items); [reflexivity|].
  by destruct items.
Qed.

Lemma truthy_spec (o : option string) :
  truthy o = true ↔ ∃ s, o = Some s ∧ s ≠ "".
Proof.
  destruct o as [s|]; simpl.
  - rewrite negb_true_iff. split.
    + intros H. exists s. split; [done|]. intros ->. by rewrite String.eqb_refl in H.
    + intros (s' & [= <-] & Hne). by apply String.eqb_neq.
  - split; [done|]. by intros (s & ? & _).
Qed.

Lemma filter_on_lookup (k' : string) (o : option string)
    (m : gmap string string) (k : string) :
  filter_on k' o m !! k =
    if bool_decide (k = k') && truthy o then o else m !! k.
Proof.
  unfold filter_on. destruct (truthy o) eqn:Ht.
  - apply truthy_spec in Ht as (s & -> & _). simpl.
    rewrite lookup_insert. case_bool_decide; subst.
    + by rewrite decide_True.
    + by rewrite decide_False.
  - by rewrite andb_false_r.
Qed.

(** C3: when the reader's result is an empty sequence or a single mapping,
    the answer is the built-in list of five records (BSS138, LM358,
    ATmega328P, 1N4148, FUS-1206-1A) cut by [demo[:limit]], which for a
    non-negative limit is its first [limit] records. *)
Theorem fallback_on_empty_or_mapping (D : Database) (q : Query)
    (log log' : list event) (items : query_result) :
  _get_documents D "componentitem" (query_filter q) (q_limit q) log
    = (Ok items, log') →
  items = QList [] ∨ (∃ d, items = QDict d) →
  list_components D q log = (Ok (slice_upto (q_limit q) demo), log') ∧
  (0 ≤ q_limit q →
   slice_upto (q_limit q) demo = take (Z.to_nat (q_limit q)) demo) ∧
  (λ c : gmap string field, c !! "code") <$> demo =
    [Some (FStr "BSS138"); Some (FStr "LM358"); Some (FStr "ATmega328P");
     Some (FStr "1N4148"); Some (FStr "FUS-1206-1A")].
Proof.
  intros Hread Hshape. rewrite list_components_unfold, Hread.
  split; [|split].
  - destruct Hshape as [->|[d ->]]; [reflexivity|].
    simpl. by rewrite orb_true_r.
  - apply slice_upto_nonneg.
  - reflexivity.
Qed.

Lemma fallback_on_empty_or_mapping_witness :
  list_components uninitialised_database smd_query []
    = (Ok (take 2 demo),
       [GetDocuments "componentitem" (query_filter smd_query) 2]).
Proof.
  destruct (fallback_on_empty_or_mapping uninitialised_database smd_query []
              [GetDocuments "componentitem" (query_filter smd_query) 2]
              (QDict ∅) eq_refl (or_intror (ex_intro _ ∅ eq_refl)))
    as (Hrun & Hcut & _).
  rewrite Hrun, Hcut; [reflexivity | simpl; lia].
Defined.

Lemma query_filter_lookup (q : Query) (k : string) :
  query_filter q !! k = if truthy (supplied q k) then supplied q k else None.
Proof.
  unfold query_filter, supplied. rewrite !filter_on_lookup, lookup_empty.
  repeat case_bool_decide; simpl; subst; try done;
    repeat match goal with
           | |- context [truthy ?o] => destruct (truthy o) eqn:?
           end; try done.
Qed.

(** C5: the filter holds a key exactly when it is one of [type], [mount],
    [package], [brand] and the caller gave it a non-empty value, which is the
    value stored; an omitted or empty parameter leaves no key behind.  This
    filter is the one handed to the reader. *)
Theorem filter_of_supplied_fields (D : Database) (q : Query)
    (log : list event) :
  (∀ k v, query_filter q !! k = Some v ↔ supplied q k = Some v ∧ v ≠ "") ∧
  (∀ k, supplied q k = None ∨ supplied q k = Some "" →
        query_filter q !! k = None) ∧
  (∀ k, k ∉ ["type"; "mount"; "package"; "brand"] → query_filter q !! k = None) ∧
  match import_get_documents D with
  | Ok _ =>
      snd (list_components D q log) =
        log ++ [GetDocuments "componentitem" (query_filter q) (q_limit q)]
  | Raise _ => snd (list_components D q log) = log
  end.
Proof.
  split; [|split; [|split]].
  - intros k v. rewrite query_filter_lookup.
    destruct (truthy (supplied q k)) eqn:Ht.
    + apply truthy_spec in Ht as (s & Hs & Hne). rewrite Hs. split.
      * intros [= <-]. by split.
      * by intros [-> _].
    + split; [done|]. intros [Hs Hne].
      assert (truthy (supplied q k) = true) as Ht'
        by (apply truthy_spec; eauto).
      congruence.
  - intros k Hk. rewrite query_filter_lookup.
    by destruct Hk as [->| ->].
  - intros k Hk. rewrite query_filter_lookup.
    assert (supplied q k = None) as ->; [|done].
    unfold supplied. repeat case_bool_decide; subst; try done;
      exfalso; apply Hk; set_solver.
  - rewrite list_components_unfold. unfold _get_documents. run.
    destruct (import_get_documents D) as [get|e].
    + destruct (get log _ _ _) as [items|e]; simpl.
      * destruct (py_not items || is_dict items); [done|]. by destruct items.
      * done.
    + done.
Qed.

Lemma filter_of_supplied_fields_witness :
  query_filter smd_query !! "mount" = Some "SMD" ∧
  query_filter smd_query !! "brand" = Some "Vishay" ∧
  query_filter smd_query !! "type" = None ∧
  query_filter smd_query !! "package" = None ∧
  query_filter smd_query !! "code" = None.
Proof.
  destruct (filter_of_supplied_fields no_database smd_query [])
    as (Hkeys & Hnone & Hother & _).
  split; [|split; [|split; [|split]]].
  - apply Hkeys. split; [reflexivity | discriminate].
  - apply Hkeys. split; [reflexivity | discriminate].
  - apply Hnone. by right.
  - apply Hnone. by left.
  - apply Hother. intros H.
    repeat (apply elem_of_cons in H as [H|H]; [discriminate H|]).
    by apply elem_of_nil in H.
Defined.

Lemma publish_id_lookup_id (d : gmap string field) (v : field) :
  d !! "_id" = Some v → publish_id d !! "id" = Some (FStr (py_str v)).
Proof.
  intros H. unfold publish_id. rewrite H.
  rewrite lookup_delete_ne by done. apply lookup_insert_eq.
Qed.

Lemma publish_id_no_internal (d : gmap string field) :
  publish_id d !! "_id" = None.
Proof.
  unfold publish_id. destruct (d !! "_id") eqn:H; [|exact H].
  apply lookup_delete_eq.
Qed.

(** The loop may meet the same document object twice: the second visit
    changes nothing. *)
Lemma publish_id_idempotent (d : gmap string field) :
  publish_id (publish_id d) = publish_id d.
Proof.
  unfold publish_id at 1. by rewrite publish_id_no_internal.
Qed.

(** Fields other than [_id] and [id] pass through unchanged. *)
Lemma publish_id_other (d : gmap string field) (k : string) :
  k ≠ "_id" → k ≠ "id" → publish_id d !! k = d !! k.
Proof.
  intros H1 H2. unfold publish_id. destruct (d !! "_id"); [|done].
  rewrite lookup_delete_ne by done. by rewrite lookup_insert_ne.
Qed.

Lemma demo_no_internal (r : gmap string field) :
  r ∈ demo → r !! "_id" = None.
Proof.
  unfold demo. rewrite !elem_of_cons, elem_of_nil.
  intros [->|[->|[->|[->|[->|[]]]]]]; reflexivity.
Qed.

(** C4: the query always answers, and no document of the answer carries
    [_id]; when the reader returned a non-empty sequence, the answer is that
    sequence cut by [items[:limit]], and the document answering one that
    carried [_id] has [id] set to the string form of that identifier. *)
Theorem internal_identifier_published (D : Database) (q : Query)
    (log : list event) :
  ∃ (answer : list (gmap string field)) (log' : list event),
    list_components D q log = (Ok answer, log') ∧
    (∀ r, r ∈ answer → r !! "_id" = None) ∧
    (∀ docs, docs ≠ [] →
       _get_documents D "componentitem" (query_filter q) (q_limit q) log
         = (Ok (QList docs), log') →
       answer = slice_upto (q_limit q) (publish_id <$> docs) ∧
       ∀ (i : nat) (d r : gmap string field) (v : field),
         docs !! i = Some d → answer !! i = Some r → d !! "_id" = Some v →
         r !! "id" = Some (FStr (py_str v))).
Proof.
  destruct (_get_documents_total D "componentitem" (query_filter q)
              (q_limit q) log) as (items & log' & Hread).
  rewrite list_components_unfold, Hread.
  destruct (py_not items || is_dict items) eqn:Hfall.
  - eexists. exists log'. split; [reflexivity|]. split.
    + intros r Hr%slice_upto_elem_of. by apply demo_no_internal.
    + intros docs Hne [= ->]. simpl in Hfall.
      rewrite orb_false_r in Hfall. by apply bool_decide_eq_true in Hfall.
  - destruct items as [docs|d|]; simpl in Hfall;
      rewrite ?orb_true_r in Hfall; try discriminate Hfall.
    eexists. exists log'. split; [reflexivity|]. split.
    + intros r Hr%slice_upto_elem_of.
      apply list_elem_of_fmap in Hr as (d & -> & _).
      apply publish_id_no_internal.
    + intros docs' _ [= <-]. split; [reflexivity|].
      intros i d r v Hd Hr%slice_upto_lookup Hv.
      rewrite list_lookup_fmap, Hd in Hr. injection Hr as <-.
      by apply publish_id_lookup_id.
Qed.

Lemma internal_identifier_published_witness :
  ∃ answer : list (gmap string field),
    fst (list_components working_database (any_query 1) []) = Ok answer ∧
    length answer = 1%nat ∧
    ∀ r, answer !! 0%nat = Some r →
         r !! "id" = Some (FStr "65f0c0ffee") ∧ r !! "_id" = None.
Proof.
  destruct (internal_identifier_published working_database (any_query 1) [])
    as (answer & log' & Hrun & Hclean & Hpub).
  assert (log' = [GetDocuments "componentitem" (query_filter (any_query 1)) 1])
    as ->.
  { apply (f_equal snd) in Hrun. vm_compute in Hrun. rewrite <- Hrun.
    vm_compute. reflexivity. }
  destruct (Hpub [stored_component; stored_component; stored_component])
    as [Hanswer Hid]; [done | vm_compute; reflexivity |].
  exists answer. rewrite Hrun. split; [reflexivity|]. split.
  - rewrite Hanswer. reflexivity.
  - intros r Hr. split.
    + apply (Hid 0%nat stored_component r (FOid "65f0c0ffee"));
        [reflexivity | exact Hr | apply lookup_insert_eq].
    + apply Hclean. apply list_elem_of_lookup. by exists 0%nat.
Defined.

(** X10: for a non-negative limit the query answers, and with at most
    [limit] records, on the store path and on the demo path alike. *)
Lemma list_components_bounded (D : Database) (q : Query) (log : list event) :
  0 ≤ q_limit q →
  ∃ answer log',
    list_components D q log = (Ok answer, log') ∧
    Z.of_nat (length answer) ≤ q_limit q.
Proof.
  intros Hlimit.
  destruct (_get_documents_total D "componentitem" (query_filter q)
              (q_limit q) log) as (items & log' & Hread).
  rewrite list_components_unfold, Hread.
  destruct (py_not items || is_dict items) eqn:Hfall.
  - eexists. exists log'. split; [reflexivity|].
    by apply slice_upto_length_nonneg.
  - destruct items as [docs|d|]; simpl in Hfall;
      rewrite ?orb_true_r in Hfall; try discriminate Hfall.
    eexists. exists log'. split; [reflexivity|].
    by apply slice_upto_length_nonneg.
Qed.

(** C6 fails for a negative limit: [limit=-1] answers four demo records when
    the reader yields nothing, and two of three stored records when the
    store answers, so the answer is longer than the limit on both paths. *)
Theorem negative_limit_exceeds_bound :
  (∃ answer log',
     list_components no_database (any_query (-1)) [] = (Ok answer, log') ∧
     length answer = 4%nat ∧
     ¬ Z.of_nat (length answer) ≤ q_limit (any_query (-1))) ∧
  (∃ answer log',
     list_components working_database (any_query (-1)) [] = (Ok answer, log') ∧
     length answer = 2%nat ∧
     ¬ Z.of_nat (length answer) ≤ q_limit (any_query (-1))).
Proof.
  split.
  - destruct (_get_documents_total no_database "componentitem"
                (query_filter (any_query (-1))) (-1) []) as (items & log' & Hread).
    pose proof Hread as Hitems. apply (f_equal fst) in Hitems.
    vm_compute in Hitems. injection Hitems as <-.
    eexists. exists log'. rewrite list_components_unfold.
    change (q_limit (any_query (-1))) with (-1). rewrite Hread.
    split; [reflexivity|]. split; [reflexivity|]. simpl. lia.
  - destruct (_get_documents_total working_database "componentitem"
                (query_filter (any_query (-1))) (-1) []) as (items & log' & Hread).
    assert (items = QList [stored_component; stored_component; stored_component])
      as ->.
    { apply (f_equal fst) in Hread. simpl in Hread. by injection Hread as <-. }
    eexists. exists log'. rewrite list_components_unfold.
    change (q_limit (any_query (-1))) with (-1). rewrite Hread.
    split; [reflexivity|]. split; [reflexivity|]. simpl. lia.
Qed.

(** The catalogue query never raises. *)
Lemma list_components_total (D : Database) (q : Query) (log : list event) :
  ∃ answer log', list_components D q log = (Ok answer, log').
Proof.
  destruct (_get_documents_total D "componentitem" (query_filter q)
              (q_limit q) log) as (items & log' & Hread).
  rewrite list_components_unfold, Hread.
  destruct (py_not items || is_dict items) eqn:Hfall; [eauto|].
  destruct items as [docs|d|]; simpl in Hfall;
    rewrite ?orb_true_r in Hfall; try discriminate Hfall.
  eauto.
Qed.

(** C10: the catalogue query always answers; when the store read raises,
    whether on import or in the call itself and whatever the state of the
    handle, the answer is the demo list cut by the limit.  A submission
    whose write raises while the handle is available is instead refused with
    an HTTP 500 error. *)
Theorem store_read_failure_absorbed (D : Database) (q : Query)
    (log : list event) :
  (∃ answer log', list_components D q log = (Ok answer, log')) ∧
  (∀ e,
     import_get_documents D = Raise e ∨
     (∃ get_documents,
        import_get_documents D = Ok get_documents ∧
        get_documents log "componentitem" (query_filter q) (q_limit q)
          = Raise e) →
     ∃ log',
       _get_documents D "componentitem" (query_filter q) (q_limit q) log
         = (Ok (QList []), log') ∧
       list_components D q log = (Ok (slice_upto (q_limit q) demo), log')) ∧
  (∀ load_items s coll doc log1 h create_document e,
     prepare D load_items s log = (Ok (coll, doc), log1) →
     import_db D = Ok (Some h) →
     import_create_document D = Ok create_document →
     create_document log1 coll doc = Raise e →
     ∃ detail log2,
       respond D load_items s log = (Raise (HTTPException 500 detail), log2)).
Proof.
  split; [apply list_components_total|]. split.
  - intros e Hfail.
    assert (∃ log', _get_documents D "componentitem" (query_filter q)
                      (q_limit q) log = (Ok (QList []), log')) as [log' Hread].
    { unfold _get_documents. run.
      destruct Hfail as [->|(get & -> & ->)]; eauto. }
    exists log'. split; [exact Hread|].
    by rewrite list_components_unfold, Hread.
  - intros load_items s coll doc log1 h create e Hprep Hdb Hcreate Hraise.
    rewrite respond_unfold, Hprep.
    unfold _create_document, _db_available. run.
    rewrite Hcreate, Hraise, Hdb. simpl. eauto.
Qed.

Lemma store_read_failure_absorbed_witness :
  (∃ log', list_components failing_database smd_query []
             = (Ok (take 2 demo), log')) ∧
  (∃ detail log',
     respond failing_database no_items (ChatbotSubmission sample_chat) []
       = (Raise (HTTPException 500 detail), log')).
Proof.
  destruct (store_read_failure_absorbed failing_database smd_query [])
    as (_ & Hread & Hwrite).
  split.
  - destruct (Hread timeout_error) as (log' & _ & Hanswer).
    + right. eexists. split; reflexivity.
    + exists log'. exact Hanswer.
  - eapply (Hwrite no_items (ChatbotSubmission sample_chat)); reflexivity.
Defined.

(** ** The diagnostic endpoint *)

(** C8: the diagnostic endpoint returns a response for every [database]
    module and environment.  A failed import, or a failing look-up of the
    handle's name, is reported as the cross mark, [ Error: ] and the first 50
    characters of the exception text; a failing enumeration as the warning
    sign, [  Connected but Error: ] and the first 50 characters; and the
    collections preview holds the first 10 names at most. *)
Theorem test_database_never_fails (D : Database)
    (getenv : string → option string) :
  ∃ r : Diagnostics,
    test_database D getenv = Ok r ∧
    (length (collections r) ≤ 10)%nat ∧
    match import_db D with
    | Raise e =>
        ∃ t, database r = cross_mark ++ text " Error: " ++ t ∧
             t = take 50 (str_exn e) ∧ (length t ≤ 50)%nat ∧
             collections r = []
    | Ok None =>
        database r = warning_sign ++ text "  Available but not initialized" ∧
        collections r = []
    | Ok (Some db) =>
        match db_name db with
        | AttrRaises e =>
            ∃ t, database r = cross_mark ++ text " Error: " ++ t ∧
                 t = take 50 (str_exn e) ∧ (length t ≤ 50)%nat ∧
                 collections r = []
        | _ =>
            match list_collection_names db with
            | Raise e =>
                ∃ t, database r =
                       warning_sign ++ text "  Connected but Error: " ++ t ∧
                     t = take 50 (str_exn e) ∧ (length t ≤ 50)%nat ∧
                     collections r = []
            | Ok names =>
                database r = check_mark ++ text " Connected & Working" ∧
                collections r = take 10 names
            end
        end
    end.
Proof.
  assert (∀ e, (length (take 50 (str_exn e)) ≤ 50)%nat) as Hcut
    by (intros e; rewrite length_take; lia).
  assert (∀ names : list pystr, (length (take 10 names) ≤ 10)%nat) as Hten
    by (intros names; rewrite length_take; lia).
  unfold test_database, test_database_body, hasattr_name, getattr_name.
  unfold slice_upto. simpl (0 <=? _). simpl Z.to_nat.
  run.
  destruct (import_db D) as [[db|]|e]; simpl.
  - destruct (db_name db) as [|name|e]; simpl.
    + destruct (list_collection_names db) as [names|e]; simpl;
        eexists; (split; [reflexivity|]); simpl; eauto 10 with lia.
    + destruct (list_collection_names db) as [names|e]; simpl;
        eexists; (split; [reflexivity|]); simpl; eauto 10 with lia.
    + eexists; (split; [reflexivity|]); simpl; eauto 10 with lia.
  - eexists; (split; [reflexivity|]); simpl; eauto with lia.
  - eexists; (split; [reflexivity|]); simpl; eauto 10 with lia.
Qed.

(** The endpoint on a store whose enumeration times out: the report keeps 50
    characters of the 107 in the exception text. *)
Example test_database_timeout :
  ∃ r, test_database failing_database (λ _, None) = Ok r ∧
       database r =
         warning_sign ++ text "  Connected but Error: "
           ++ text "localhost:27017: [Errno 111] Connection refused, T" ∧
       length (str_exn timeout_error) = 107%nat ∧
       database_url r = Some (cross_mark ++ text " Not Set") ∧
       connection_status r = text "Connected".
Proof. eexists. repeat split; vm_compute; reflexivity. Qed.

Example test_database_working :
  ∃ r, test_database working_database
         (λ k, if String.eqb k "DATABASE_URL" then Some "mongodb://db" else None)
         = Ok r ∧
       database r = check_mark ++ text " Connected & Working" ∧
       collections r = [text "lead"; text "componentitem"] ∧
       database_url r = Some (check_mark ++ text " Set") ∧
       database_name r = Some (cross_mark ++ text " Not Set").
Proof. eexists. repeat split; vm_compute; reflexivity. Qed.

(** * Further properties of the helpers and endpoints *)

(** ** The document writer and reader *)

Lemma dict_get_set_ne (k k' : string) (v : value) (d : dict) :
  k ≠ k' → dict_get k (dict_set k' v d) = dict_get k d.
Proof.
  intros Hne. induction d as [|[k0 v0] d IH]; simpl.
  - by apply String.eqb_neq in Hne as ->.
  - destruct (String.eqb k' k0) eqn:E; simpl.
    + apply String.eqb_eq in E as <-.
      by apply String.eqb_neq in Hne as ->.
    + by rewrite IH.
Qed.

Lemma create_document_run (D : Database) (c : string) (d : dict)
    (log : list event) :
  _create_document D c d log =
    match import_create_document D with
    | Ok create_document =>
        (Ok (match create_document log c d with
             | Ok i => i
             | Raise _ => None
             end), log ++ [CreateDocument c d])
    | Raise _ => (Ok None, log)
    end.
Proof.
  unfold _create_document. run.
  destruct (import_create_document D) as [create|e]; [|reflexivity].
  by destruct (create log c d).
Qed.

Lemma get_documents_run (D : Database) (c : string)
    (filt : gmap string string) (limit : Z) (log : list event) :
  _get_documents D c filt limit log =
    match import_get_documents D with
    | Ok get_documents =>
        (Ok (match get_documents log c filt limit with
             | Ok items => items
             | Raise _ => QList []
             end), log ++ [GetDocuments c filt limit])
    | Raise _ => (Ok (QList []), log)
    end.
Proof.
  unfold _get_documents. run.
  destruct (import_get_documents D) as [get|e]; [|reflexivity].
  by destruct (get log c filt limit).
Qed.

Lemma db_available_run (D : Database) (log : list event) :
  _db_available D log =
    (Ok (match import_db D with Ok (Some _) => true | _ => false end), log).
Proof.
  unfold _db_available. run. by destruct (import_db D) as [[h|]|e].
Qed.

(** X1: the writer hides every failure behind [None].  It yields an
    identifier only when [create_document] was imported and returned that
    identifier; it reaches the store once when the import works and not at all
    otherwise, and earlier log entries are never touched. *)
Theorem create_document_absorbs_failures (D : Database) (c : string)
    (d : dict) (log : list event) :
  ∃ (_id : option string) (log' : list event),
    _create_document D c d log = (Ok _id, log') ∧
    (∀ i, _id = Some i ↔
          ∃ create_document, import_create_document D = Ok create_document ∧
                             create_document log c d = Ok (Some i)) ∧
    (log' = log ++ [CreateDocument c d] ↔
     ∃ create_document, import_create_document D = Ok create_document) ∧
    (log' = log ↔ ∃ e, import_create_document D = Raise e).
Proof.
  rewrite create_document_run.
  destruct (import_create_document D) as [create|e].
  - eexists. eexists. split; [reflexivity|]. split; [|split].
    + intros i. split.
      * intros H. exists create. split; [done|].
        destruct (create log c d) as [o|e]; [by subst|discriminate].
      * intros (create' & [= <-] & ->). reflexivity.
    + split; eauto.
    + split.
      * intros H. apply (f_equal length) in H.
        rewrite length_app in H. simpl in H. lia.
      * intros [e He]. discriminate.
  - eexists. eexists. split; [reflexivity|]. split; [|split].
    + intros i. split; [discriminate|]. intros (create' & Hc & _). discriminate.
    + split.
      * intros H. apply (f_equal length) in H.
        rewrite length_app in H. simpl in H. lia.
      * intros [create' Hc]. discriminate.
    + split; eauto.
Qed.

Lemma create_document_absorbs_failures_witness :
  _create_document failing_database "lead" [] [] =
    (Ok None, [CreateDocument "lead" []]) ∧
  ∃ _id log', _create_document working_database "lead" [] [] = (Ok _id, log') ∧
              _id = Some "doc0".
Proof.
  split; [reflexivity|].
  destruct (create_document_absorbs_failures working_database "lead" [] [])
    as (_id & log' & Hrun & Hid & _).
  exists _id, log'. split; [exact Hrun|].
  apply Hid. eexists. split; reflexivity.
Defined.

(** X2: the reader hides every failure behind an empty list.  A result other
    than [[]] is what [get_documents] itself returned for this collection,
    filter and limit; the store is queried once when the import works and not
    at all otherwise, and nothing is ever written. *)
Theorem get_documents_absorbs_failures (D : Database) (c : string)
    (filt : gmap string string) (limit : Z) (log : list event) :
  ∃ (items : query_result) (log' : list event),
    _get_documents D c filt limit log = (Ok items, log') ∧
    (items ≠ QList [] →
     ∃ get_documents, import_get_documents D = Ok get_documents ∧
                      get_documents log c filt limit = Ok items) ∧
    (∀ e, import_get_documents D = Raise e → items = QList [] ∧ log' = log) ∧
    (∀ get_documents, import_get_documents D = Ok get_documents →
       log' = log ++ [GetDocuments c filt limit]) ∧
    written_collections log' = written_collections log.
Proof.
  rewrite get_documents_run.
  destruct (import_get_documents D) as [get|e].
  - eexists. eexists. split; [reflexivity|].
    split; [|split; [|split]].
    + intros Hne. exists get. split; [done|].
      destruct (get log c filt limit) as [items|e]; [done|]. by destruct Hne.
    + discriminate.
    + done.
    + unfold written_collections. rewrite omap_app. simpl. by rewrite app_nil_r.
  - eexists. eexists. split; [reflexivity|].
    split; [|split; [|split]]; done.
Qed.

Lemma get_documents_absorbs_failures_witness :
  ∃ items log',
    _get_documents working_database "componentitem" ∅ 5 [] = (Ok items, log') ∧
    items = QList [stored_component; stored_component; stored_component] ∧
    log' = [GetDocuments "componentitem" ∅ 5].
Proof.
  destruct (get_documents_absorbs_failures working_database "componentitem"
              ∅ 5 []) as (items & log' & Hrun & Hitems & _ & Hlog & _).
  exists items, log'. split; [exact Hrun|].
  pose proof Hrun as Hshape. rewrite get_documents_run in Hshape.
  simpl in Hshape. injection Hshape as <- <-.
  split; [reflexivity|]. by apply (Hlog _ eq_refl).
Defined.

(** ** Attachments and the writes of a submission *)

Lemma save_uploaded_file_run (D : Database) (f : UploadFile)
    (bucket : string) (log : list event) :
  _save_uploaded_file D f bucket log =
    match import_create_document D with
    | Ok create_document =>
        (Ok (file_summary
               (match create_document log "file" (file_document f bucket) with
                | Ok i => i
                | Raise _ => None
                end) f),
         log ++ [CreateDocument "file" (file_document f bucket)])
    | Raise _ => (Ok (file_summary None f), log)
    end.
Proof.
  unfold _save_uploaded_file. unfold mbind at 1. unfold SE_bind.
  fold (file_document f bucket). rewrite create_document_run.
  by destruct (import_create_document D).
Qed.

(** X3: the summary that a parent document embeds has exactly the keys
    [file_id], [filename] and [size]: the raw bytes, the bucket and the
    content type go to the [file] document only.  When the writer yields no
    identifier the summary still reports the name and the size. *)
Theorem attachment_summary_shape (D : Database) (f : UploadFile)
    (bucket : string) (log : list event) :
  ∃ (summary : dict) (log' : list event),
    _save_uploaded_file D f bucket log = (Ok summary, log') ∧
    summary.*1 = ["file_id"; "filename"; "size"] ∧
    dict_get "filename" summary = Some (opt_str (filename f)) ∧
    dict_get "blob" summary = None ∧
    dict_get "bucket" summary = None ∧
    dict_get "content_type" summary = None ∧
    (∀ e, import_create_document D = Raise e →
          summary = file_summary None f ∧ log' = log).
Proof.
  rewrite save_uploaded_file_run.
  destruct (import_create_document D) as [create|e];
    eexists; eexists; (split; [reflexivity|]); repeat split; done.
Qed.

Lemma attachment_summary_shape_witness :
  fst (_save_uploaded_file no_database sample_upload "leads" []) =
    Ok [("file_id", VNone); ("filename", VStr "bom.csv"); ("size", VInt 5)].
Proof.
  destruct (attachment_summary_shape no_database sample_upload "leads" [])
    as (summary & log' & Hrun & _ & _ & _ & _ & _ & Hnone).
  destruct (Hnone module_not_found eq_refl) as [-> _].
  by rewrite Hrun.
Defined.

Lemma attach_run (D : Database) (f : option UploadFile) (bucket : string)
    (log : list event) :
  attach D f bucket log =
    match f with
    | Some f =>
        match _save_uploaded_file D f bucket log with
        | (Ok summary, log') => (Ok (Some summary), log')
        | (Raise e, log') => (Raise e, log')
        end
    | None => (Ok None, log)
    end.
Proof.
  destruct f as [f|]; [|reflexivity]. unfold attach. run.
  by destruct (_save_uploaded_file D f bucket log) as [[summary|e] log'].
Qed.

(** The preparation of a submission logs the attachment write and nothing
    else, whether it succeeds or raises after it. *)
Lemma prepare_log (D : Database) (load_items : string → outcome (list LeadItem))
    (s : Submission) (log : list event) :
  snd (prepare D load_items s log) = log ∨
  snd (prepare D load_items s log) = log ++ upload_events D s.
Proof.
  unfold upload_events.
  destruct s as [q|q|p]; simpl; run.
  - destruct (truthy (lf_items_json q));
      [destruct (load_items (default "" (lf_items_json q))) as [items|e]|];
      simpl; try (by left);
      rewrite attach_run; (destruct (lf_file q) as [f|]; simpl; [|by left]);
      rewrite save_uploaded_file_run;
      destruct (import_create_document D); simpl; first [by right | by left].
  - rewrite attach_run. destruct (cf_file q) as [f|]; simpl.
    + rewrite save_uploaded_file_run.
      destruct (import_create_document D); simpl;
        destruct (cf_topic q); simpl; first [by right | by left].
    + destruct (cf_topic q); by left.
  - by left.
Qed.

Lemma prepare_ok_log (D : Database)
    (load_items : string → outcome (list LeadItem)) (s : Submission)
    (log log1 : list event) (coll : string) (doc : dict) :
  prepare D load_items s log = (Ok (coll, doc), log1) →
  log1 = log ++ upload_events D s ∧
  coll = match s with
         | ContactSubmission _ => "contactmessage"
         | _ => "lead"
         end.
Proof.
  unfold upload_events.
  destruct s as [q|q|p]; simpl; run.
  - destruct (truthy (lf_items_json q));
      [destruct (load_items (default "" (lf_items_json q))) as [items|e]|];
      simpl; try discriminate;
      rewrite attach_run; (destruct (lf_file q) as [f|]; simpl);
      rewrite ?save_uploaded_file_run;
      destruct (import_create_document D); simpl; intros [= <- <- <-];
      by rewrite ?app_nil_r.
  - rewrite attach_run. destruct (cf_file q) as [f|]; simpl;
      rewrite ?save_uploaded_file_run;
      destruct (import_create_document D); simpl;
      (destruct (cf_topic q); simpl; [|discriminate]);
      intros [= <- <- <-]; by rewrite ?app_nil_r.
  - intros [= <- <- <-]. split; [|done].
    destruct (import_create_document D); by rewrite app_nil_r.
Qed.


Lemma written_collections_app (l1 l2 : list event) :
  written_collections (l1 ++ l2) =
    written_collections l1 ++ written_collections l2.
Proof. apply omap_app. Qed.

(** X4: once a submission is prepared and the writer can be imported, the
    endpoint writes the attachment (if any) to [file] first and then the
    document to its own collection, once each and in that order, whatever the
    outcome: when the second write fails and the request ends with an error,
    the attachment write has already been made and is not undone. *)
Theorem submission_write_trace (D : Database)
    (load_items : string → outcome (list LeadItem)) (s : Submission)
    (log log1 : list event) (coll : string) (doc : dict)
    (create_document : list event → string → dict → outcome (option string)) :
  import_create_document D = Ok create_document →
  prepare D load_items s log = (Ok (coll, doc), log1) →
  snd (respond D load_items s log) = log1 ++ [CreateDocument coll doc] ∧
  written_collections (snd (respond D load_items s log)) =
    written_collections log
      ++ match upload_of s with Some _ => ["file"] | None => [] end
      ++ [match s with
          | ContactSubmission _ => "contactmessage"
          | _ => "lead"
          end].
Proof.
  intros Himport Hprep.
  destruct (prepare_ok_log _ _ _ _ _ _ _ Hprep) as [Hlog1 Hcoll].
  assert (snd (respond D load_items s log) = log1 ++ [CreateDocument coll doc])
    as Hsnd.
  { rewrite respond_unfold, Hprep, create_document_run, Himport.
    destruct (create_document log1 coll doc) as [[i|]|e]; simpl; try done;
      rewrite db_available_run; by destruct (import_db D) as [[h|]|e']. }
  split; [exact Hsnd|].
  rewrite Hsnd, Hlog1, !written_collections_app. unfold upload_events.
  rewrite Himport, <- Hcoll, <- app_assoc.
  by destruct (upload_of s) as [[f bucket]|].
Qed.

Lemma submission_write_trace_witness :
  (fst (respond failing_database no_items (LeadSubmission sample_lead) []) =
     Raise (HTTPException 500 "Errore nel salvataggio della richiesta") ∧
   written_collections
     (snd (respond failing_database no_items (LeadSubmission sample_lead) []))
     = ["file"; "lead"]) ∧
  written_collections
    (snd (respond working_database no_items (ContactSubmission sample_contact) []))
    = ["contactmessage"].
Proof.
  split.
  - edestruct (submission_write_trace failing_database no_items
                 (LeadSubmission sample_lead) []) as [_ Hwritten];
      [reflexivity | reflexivity |].
    split; [reflexivity | exact Hwritten].
  - edestruct (submission_write_trace working_database no_items
                 (ContactSubmission sample_contact) []) as [_ Hwritten];
      [reflexivity | reflexivity |].
    exact Hwritten.
Defined.

(** X5: without a usable [database] module ([create_document] cannot be
    imported and the handle is missing or [None]) every prepared submission,
    attachment included, is acknowledged with the warning response and
    nothing at all reaches the store. *)
Theorem degraded_submission_accepted (D : Database)
    (load_items : string → outcome (list LeadItem)) (s : Submission)
    (log log1 : list event) (coll : string) (doc : dict) (e : exn) :
  import_create_document D = Raise e →
  (∀ h, import_db D ≠ Ok (Some h)) →
  prepare D load_items s log = (Ok (coll, doc), log1) →
  respond D load_items s log = (Ok accepted_unsaved, log) ∧
  (∀ f bucket, upload_of s = Some (f, bucket) →
     dict_get "attachment" doc = Some (VDict (file_summary None f))).
Proof.
  intros Himport Hdb Hprep.
  destruct (prepare_ok_log _ _ _ _ _ _ _ Hprep) as [Hlog1 _].
  unfold upload_events in Hlog1. rewrite Himport, app_nil_r in Hlog1. subst log1.
  split.
  - rewrite respond_unfold, Hprep, create_document_run, Himport.
    rewrite db_available_run.
    destruct (import_db D) as [[h|]|e']; [by destruct (Hdb h)|done|done].
  - intros f bucket Hup. revert Hprep.
    destruct s as [q|q|p]; simpl in *; run.
    + destruct (truthy (lf_items_json q));
        [destruct (load_items (default "" (lf_items_json q)))|];
        simpl; try discriminate;
        rewrite attach_run;
        (destruct (lf_file q) as [f'|]; [|discriminate]);
        injection Hup as <- <-;
        rewrite save_uploaded_file_run, Himport;
        intros [= <- <-]; reflexivity.
    + rewrite attach_run.
      destruct (cf_file q) as [f'|]; [|discriminate]. injection Hup as <- <-.
      rewrite save_uploaded_file_run, Himport.
      destruct (cf_topic q); simpl; [|discriminate].
      intros [= <- <-]. reflexivity.
    + discriminate.
Qed.

Lemma degraded_submission_accepted_witness :
  respond no_database no_items (LeadSubmission sample_lead) [] =
    (Ok accepted_unsaved, []).
Proof.
  edestruct (degraded_submission_accepted no_database no_items
               (LeadSubmission sample_lead) []) as [Hrun _];
    [reflexivity | discriminate | reflexivity | exact Hrun].
Defined.

(** X6: a lead whose [items_json] fails to load is refused with the loader's
    own exception before anything is written, the attachment included; and
    an omitted or empty [items_json] is never handed to the loader. *)
Theorem lead_items_checked_before_writes (D : Database)
    (load_items : string → outcome (list LeadItem)) (q : LeadForm)
    (log : list event) :
  (∀ text e, lf_items_json q = Some text → text ≠ "" →
             load_items text = Raise e →
             create_lead D load_items q log = (Raise e, log)) ∧
  (lf_items_json q = None ∨ lf_items_json q = Some "" →
   ∀ other, create_lead D load_items q log = create_lead D other q log).
Proof.
  split.
  - intros t e Hjson Hne Hload. unfold create_lead. run.
    rewrite Hjson. simpl. apply String.eqb_neq in Hne as ->. simpl.
    by rewrite Hload.
  - intros Hnone other. unfold create_lead. run.
    by destruct Hnone as [-> | ->].
Qed.

Lemma lead_items_checked_before_writes_witness :
  create_lead working_database rejecting_items malformed_lead [] =
    (Raise (Exception (text "Expecting value: line 1 column 2 (char 1)")), []).
Proof.
  destruct (lead_items_checked_before_writes working_database rejecting_items
              malformed_lead []) as [Hfail _].
  apply (Hfail "["); [reflexivity | discriminate | reflexivity].
Defined.

(** X7: an endpoint answers with one of exactly two bodies, the saved
    response or the warning response, so [ok] is always true and a warning is
    present exactly when the identifier is null; and the only exception an
    endpoint raises by itself is the HTTP 500 with its fixed detail, any other
    one comes out of the preparation unchanged. *)
Theorem submission_outcomes_exhaustive (D : Database)
    (load_items : string → outcome (list LeadItem)) (s : Submission)
    (log log' : list event) :
  (∀ r, respond D load_items s log = (Ok r, log') →
     dict_get "ok" r = Some (VBool true) ∧
     ((∃ i, r = saved i ∧ dict_get "warning" r = None) ∨
      (r = accepted_unsaved ∧ dict_get "id" r = Some VNone))) ∧
  (∀ e, respond D load_items s log = (Raise e, log') →
     e = HTTPException 500 (failure_detail s) ∨
     prepare D load_items s log = (Raise e, log')).
Proof.
  rewrite respond_unfold.
  destruct (prepare D load_items s log) as [[[coll doc]|e0] log1].
  - rewrite create_document_run.
    destruct (import_create_document D) as [create|e1];
      [destruct (create log1 coll doc) as [[i|]|e2]|];
      rewrite ?db_available_run; destruct (import_db D) as [[h|]|e3];
      (split; [intros r Hr | intros e Hr]); try discriminate Hr;
      injection Hr as <- <-;
      first [ by left
            | split; [reflexivity|];
              first [ left; eexists; split; reflexivity
                    | right; split; reflexivity ] ].
  - split; [intros r Hr; discriminate Hr|]. intros e [= <- <-]. by right.
Qed.

Lemma submission_outcomes_exhaustive_witness :
  dict_get "ok" accepted_unsaved = Some (VBool true) ∧
  dict_get "id" accepted_unsaved = Some VNone.
Proof.
  destruct (submission_outcomes_exhaustive no_database no_items
              (ChatbotSubmission sample_chat) [] []) as [Hok _].
  destruct (Hok accepted_unsaved eq_refl) as [Htrue _].
  split; [exact Htrue | reflexivity].
Defined.



(** ** Further properties of the catalogue query *)

Lemma slice_upto_all {A} (n : Z) (l : list A) :
  Z.of_nat (length l) ≤ n → slice_upto n l = l.
Proof.
  intros Hn. rewrite slice_upto_nonneg by lia. apply take_ge. lia.
Qed.

Lemma slice_upto_negative {A} (n : Z) (l : list A) :
  n < 0 → slice_upto n l = take (length l - Z.to_nat (- n)) l.
Proof.
  intros Hn. unfold slice_upto.
  destruct (Z.leb_spec 0 n) as [Hle|_]; [lia|]. f_equal. lia.
Qed.

(** What the answer is cut from: the demo list, or the normalised documents
    of a non-empty sequence. *)
Lemma list_components_source (D : Database) (q : Query) (log : list event) :
  ∃ source log',
    list_components D q log = (Ok (slice_upto (q_limit q) source), log') ∧
    (source = demo ∨
     ∃ docs, docs ≠ [] ∧ source = publish_id <$> docs ∧
             _get_documents D "componentitem" (query_filter q) (q_limit q) log
               = (Ok (QList docs), log')).
Proof.
  destruct (_get_documents_total D "componentitem" (query_filter q)
              (q_limit q) log) as (items & log' & Hread).
  rewrite list_components_unfold, Hread.
  destruct (py_not items || is_dict items) eqn:Hfall.
  - exists demo, log'. split; [reflexivity|]. by left.
  - destruct items as [docs|d|]; simpl in Hfall;
      rewrite ?orb_true_r in Hfall; try discriminate Hfall.
    exists (publish_id <$> docs), log'. split; [reflexivity|]. right.
    exists docs. split; [|done]. rewrite orb_false_r in Hfall.
    by apply bool_decide_eq_false in Hfall.
Qed.

(** X9: the demo list is never filtered.  Whenever the reader yields [None],
    an empty sequence or a mapping, the answer depends on the limit alone: two
    queries with the same limit and any [type], [mount], [package] and [brand]
    get the same records. *)
Theorem fallback_ignores_filter (D : Database) (q q' : Query)
    (log log1 log2 : list event) (items items' : query_result) :
  q_limit q = q_limit q' →
  _get_documents D "componentitem" (query_filter q) (q_limit q) log
    = (Ok items, log1) →
  _get_documents D "componentitem" (query_filter q') (q_limit q') log
    = (Ok items', log2) →
  (items = QNone ∨ items = QList [] ∨ ∃ d, items = QDict d) →
  (items' = QNone ∨ items' = QList [] ∨ ∃ d, items' = QDict d) →
  fst (list_components D q log) = fst (list_components D q' log) ∧
  fst (list_components D q log) = Ok (slice_upto (q_limit q) demo).
Proof.
  intros Hlimit Hread Hread' Hshape Hshape'.
  assert (∀ r, (r = QNone ∨ r = QList [] ∨ ∃ d, r = QDict d) →
               py_not r || is_dict r = true) as Hfall.
  { intros r [->|[->|[d ->]]]; simpl; by rewrite ?orb_true_r. }
  rewrite !list_components_unfold, Hread, Hread'.
  rewrite (Hfall _ Hshape), (Hfall _ Hshape'), Hlimit. by split.
Qed.

Lemma fallback_ignores_filter_witness :
  ∃ r, fst (list_components no_database pth_query []) = Ok [r] ∧
       r !! "mount" = Some (FStr "SMD") ∧
       query_filter pth_query !! "mount" = Some "PTH".
Proof.
  destruct (fallback_ignores_filter no_database pth_query (any_query 1)
              [] [] [] (QList []) (QList []))
    as [_ Hdemo]; [reflexivity | reflexivity | reflexivity | by right; left
                  | by right; left |].
  eexists. split; [rewrite Hdemo; reflexivity|].
  split; vm_compute; reflexivity.
Defined.

Lemma list_components_bounded_witness :
  ∃ answer log',
    list_components working_database (any_query 2) [] = (Ok answer, log') ∧
    Z.of_nat (length answer) ≤ 2.
Proof.
  apply (list_components_bounded working_database (any_query 2) []).
  simpl. lia.
Defined.

(** X11: a limit at least as large as the number of records returns them
    all, in the order of the reader: every stored document (normalised) when
    the reader returned a non-empty sequence, and the five demo records for
    any limit of five or more, the default of 50 included. *)
Theorem large_limit_returns_everything (D : Database) (q : Query)
    (log log' : list event) (items : query_result) :
  _get_documents D "componentitem" (query_filter q) (q_limit q) log
    = (Ok items, log') →
  (∀ docs, items = QList docs → docs ≠ [] →
           Z.of_nat (length docs) ≤ q_limit q →
           list_components D q log = (Ok (publish_id <$> docs), log')) ∧
  (py_not items || is_dict items = true → 5 ≤ q_limit q →
   list_components D q log = (Ok demo, log')).
Proof.
  intros Hread. rewrite list_components_unfold, Hread. split.
  - intros docs -> Hne Hlen.
    assert (py_not (QList docs) || is_dict (QList docs) = false) as ->
      by (by destruct docs).
    rewrite slice_upto_all; [done|]. by rewrite length_fmap.
  - intros -> Hlimit. by rewrite slice_upto_all.
Qed.

Lemma large_limit_returns_everything_witness :
  fst (list_components no_database (any_query 50) []) = Ok demo ∧
  ∃ answer, fst (list_components working_database (any_query 3) []) = Ok answer ∧
            length answer = 3%nat.
Proof.
  split.
  - edestruct (large_limit_returns_everything no_database (any_query 50) [])
      as [_ Hdemo]; [reflexivity|].
    rewrite Hdemo; [reflexivity | reflexivity | simpl; lia].
  - edestruct (large_limit_returns_everything working_database (any_query 3) [])
      as [Hall _]; [reflexivity|].
    eexists. rewrite (Hall _ eq_refl); [split; reflexivity | done | simpl; lia].
Defined.

(** X12: a negative limit does not empty the answer: it removes the last
    [-limit] records of what would be returned, so the answer has
    [max 0 (n + limit)] records where [n] counts the demo list or the stored
    documents. *)
Theorem negative_limit_drops_tail (D : Database) (q : Query)
    (log : list event) :
  q_limit q < 0 →
  ∃ source log',
    list_components D q log =
      (Ok (take (length source - Z.to_nat (- q_limit q)) source), log') ∧
    (source = demo ∨
     ∃ docs, docs ≠ [] ∧ source = publish_id <$> docs ∧
             _get_documents D "componentitem" (query_filter q) (q_limit q) log
               = (Ok (QList docs), log')) ∧
    Z.of_nat (length (take (length source - Z.to_nat (- q_limit q)) source))
      = Z.max 0 (Z.of_nat (length source) + q_limit q).
Proof.
  intros Hneg.
  destruct (list_components_source D q log) as (source & log' & Hrun & Hsrc).
  exists source, log'. rewrite Hrun, slice_upto_negative by done.
  split; [done|]. split; [done|]. rewrite length_take. lia.
Qed.

Lemma negative_limit_drops_tail_witness :
  fst (list_components no_database (any_query (-2)) []) = Ok (take 3 demo) ∧
  fst (list_components no_database (any_query (-7)) []) = Ok [].
Proof.
  split.
  - destruct (negative_limit_drops_tail no_database (any_query (-2)) [])
      as (source & log' & Hrun & _ & _); [simpl; lia|].
    reflexivity.
  - destruct (negative_limit_drops_tail no_database (any_query (-7)) [])
      as (source & log' & Hrun & _ & _); [simpl; lia|].
    reflexivity.
Defined.

(** X13: normalisation touches [_id] and [id] only.  Every other field of a
    stored document reaches the answer unchanged, and a document without
    [_id] is returned exactly as stored, its own [id] included. *)
Theorem other_fields_preserved (D : Database) (q : Query)
    (log log' : list event) (docs : list (gmap string field)) :
  docs ≠ [] →
  _get_documents D "componentitem" (query_filter q) (q_limit q) log
    = (Ok (QList docs), log') →
  ∃ answer,
    list_components D q log = (Ok answer, log') ∧
    ∀ (i : nat) (d r : gmap string field),
      docs !! i = Some d → answer !! i = Some r →
      (∀ k, k ≠ "_id" → k ≠ "id" → r !! k = d !! k) ∧
      (d !! "_id" = None → r = d).
Proof.
  intros Hne Hread. rewrite list_components_unfold, Hread.
  assert (py_not (QList docs) || is_dict (QList docs) = false) as ->
    by (by destruct docs).
  eexists. split; [reflexivity|].
  intros i d r Hd Hr%slice_upto_lookup.
  rewrite list_lookup_fmap, Hd in Hr. injection Hr as <-. split.
  - intros k. apply publish_id_other.
  - intros Hnone. unfold publish_id. by rewrite Hnone.
Qed.

Lemma other_fields_preserved_witness :
  ∃ answer,
    fst (list_components (serving [stored_component; plain_component])
           (any_query 50) []) = Ok answer ∧
    (∀ r, answer !! 0%nat = Some r → r !! "code" = Some (FStr "NE555")) ∧
    (∀ r, answer !! 1%nat = Some r → r = plain_component).
Proof.
  edestruct (other_fields_preserved (serving [stored_component; plain_component])
               (any_query 50) []) as (answer & Hrun & Hkeep);
    [ | reflexivity | ]; [done|].
  exists answer. rewrite Hrun. split; [reflexivity|]. split.
  - intros r Hr.
    destruct (Hkeep 0%nat stored_component r eq_refl Hr) as [Hother _].
    rewrite Hother by done. vm_compute. reflexivity.
  - intros r Hr.
    destruct (Hkeep 1%nat plain_component r eq_refl Hr) as [_ Hsame].
    apply Hsame. vm_compute. reflexivity.
Defined.

(** ** The normalisation loop on shared objects *)

Lemma publish_id_twice (o : option (gmap string field)) :
  publish_id <$> (publish_id <$> o) = publish_id <$> o.
Proof. destruct o as [d|]; simpl; [|done]. by rewrite publish_id_idempotent. Qed.

Lemma publish_in_place_lookup (refs : list nat)
    (heap : gmap nat (gmap string field)) (r : nat) :
  publish_in_place refs heap !! r =
    if decide (r ∈ refs) then publish_id <$> heap !! r else heap !! r.
Proof.
  revert heap. induction refs as [|a refs IH]; intros heap.
  - destruct (decide (r ∈ [])) as [H%elem_of_nil|_]; [done | reflexivity].
  - change (publish_in_place (a :: refs) heap)
      with (publish_in_place refs (alter publish_id a heap)).
    rewrite IH, lookup_alter.
    destruct (decide (r ∈ a :: refs)) as [Hin|Hnin];
      destruct (decide (r ∈ refs)) as [Hin'|Hnin'];
      destruct (decide (a = r)) as [->|Hne]; try done.
    + by rewrite publish_id_twice.
    + apply elem_of_cons in Hin as [->|?]; [by destruct Hne | done].
    + destruct Hnin. by right.
    + destruct Hnin. by right.
    + destruct Hnin. by left.
Qed.

(** X14: the in-place loop over shared dictionaries gives the same list as
    normalising each position on its own, also when one object sits at
    several positions; objects outside the list are not touched, and after
    the loop no object of the list carries [_id]. *)
Theorem publish_in_place_agrees (refs : list nat)
    (heap : gmap nat (gmap string field)) :
  read_refs (publish_in_place refs heap) refs =
    (λ r, publish_id <$> heap !! r) <$> refs ∧
  (∀ r, r ∉ refs → publish_in_place refs heap !! r = heap !! r) ∧
  (∀ r d, r ∈ refs → publish_in_place refs heap !! r = Some d →
          d !! "_id" = None).
Proof.
  split; [|split].
  - unfold read_refs. apply list_fmap_ext. intros i r Hr.
    rewrite publish_in_place_lookup, decide_True; [done|].
    by eapply list_elem_of_lookup_2.
  - intros r Hr. by rewrite publish_in_place_lookup, decide_False.
  - intros r d Hr. rewrite publish_in_place_lookup, decide_True by done.
    destruct (heap !! r) as [d0|]; simpl; [|done].
    intros [= <-]. apply publish_id_no_internal.
Qed.

Lemma publish_in_place_agrees_witness :
  read_refs (publish_in_place [0; 0; 1]%nat
               (<[0%nat := {["_id" := FInt 7]}]> {[1%nat := {["code" := FStr "X"]}]}))
            [0; 0; 1]%nat
  = [Some {["id" := FStr "7"]}; Some {["id" := FStr "7"]};
     Some {["code" := FStr "X"]}].
Proof.
  destruct (publish_in_place_agrees [0; 0; 1]%nat
              (<[0%nat := {["_id" := FInt 7]}]> {[1%nat := {["code" := FStr "X"]}]}))
    as [Hsame _].
  rewrite Hsame. vm_compute. reflexivity.
Defined.

(** ** Further properties of the diagnostic endpoint *)

(** X15: [backend] always reads as running, and [database_url] and
    [database_name] report only whether the environment variables
    [DATABASE_URL] and [DATABASE_NAME] are set to a non-empty value: neither
    the handle's name nor the state of the store reaches them. *)
Theorem diagnostics_report_environment (D : Database)
    (getenv : string → option string) :
  ∃ r : Diagnostics,
    test_database D getenv = Ok r ∧
    backend r = check_mark ++ text " Running" ∧
    database_url r =
      Some (if truthy (getenv "DATABASE_URL") then check_mark ++ text " Set"
            else cross_mark ++ text " Not Set") ∧
    database_name r =
      Some (if truthy (getenv "DATABASE_NAME") then check_mark ++ text " Set"
            else cross_mark ++ text " Not Set").
Proof.
  unfold test_database, test_database_body, hasattr_name, getattr_name. run.
  destruct (import_db D) as [[db|]|e]; simpl;
    [destruct (db_name db) as [|name|e]; simpl;
     [destruct (list_collection_names db) as [names|e]..|]| |];
    simpl; eexists; (split; [reflexivity|]); by repeat split.
Qed.

(** X16: [connection_status] reads [Connected] exactly when the import
    yields a handle whose [name] look-up does not fail, even if listing the
    collections then fails; otherwise it stays [Not Connected].  So whenever
    the availability probe answers [False] the status is [Not Connected] and
    no collection is listed, while a handle with a failing [name] look-up is
    reported as not connected although the probe answers [True]. *)
Theorem connection_status_characterised (D : Database)
    (getenv : string → option string) (log : list event) :
  ∃ r : Diagnostics,
    test_database D getenv = Ok r ∧
    (connection_status r = text "Connected" ∨
     connection_status r = text "Not Connected") ∧
    (connection_status r = text "Connected" ↔
     ∃ db, import_db D = Ok (Some db) ∧ ∀ e, db_name db ≠ AttrRaises e) ∧
    (_db_available D log = (Ok false, log) →
     connection_status r = text "Not Connected" ∧ collections r = []) ∧
    (∀ db e, import_db D = Ok (Some db) → db_name db = AttrRaises e →
       _db_available D log = (Ok true, log) ∧
       connection_status r = text "Not Connected" ∧ collections r = []).
Proof.
  rewrite db_available_run.
  unfold test_database, test_database_body, hasattr_name, getattr_name. run.
  destruct (import_db D) as [[db|]|e]; simpl;
    [destruct (db_name db) as [|name|e] eqn:Hname; simpl;
     [destruct (list_collection_names db) as [names|e']..|]| |];
    simpl; eexists; (split; [reflexivity|]); simpl;
    (split; [by (left + right)|]);
    (split; [split; [try discriminate | try (by intros (? & [=] & _))]|]);
    try (intros _; exists db; split; [done|]; intros e0; by rewrite Hname);
    try (intros (db' & [= <-] & Hok); by destruct (Hok e));
    (split; [try discriminate; by intros _|]);
    intros db' e0 [= <-] Hraise; try (by rewrite Hraise in Hname); done.
Qed.

Lemma connection_status_characterised_witness :
  (∃ r, test_database no_database (λ _, None) = Ok r ∧
        connection_status r = text "Not Connected" ∧ collections r = []) ∧
  (∃ r, test_database broken_name_database (λ _, None) = Ok r ∧
        connection_status r = text "Not Connected" ∧
        _db_available broken_name_database [] = (Ok true, [])).
Proof.
  split.
  - destruct (connection_status_characterised no_database (λ _, None) [])
      as (r & Hrun & _ & _ & Hprobe & _).
    exists r. split; [exact Hrun|]. by apply Hprobe.
  - destruct (connection_status_characterised broken_name_database
                (λ _, None) []) as (r & Hrun & _ & _ & _ & Hname).
    exists r. split; [exact Hrun|].
    edestruct Hname as (Hprobe & Hstatus & _); [reflexivity..|]. by split.
Defined.

(** X17: the [database] message of the diagnostic response is never longer
    than 75 characters, however long the text of the exception it quotes. *)
Theorem database_report_bounded (D : Database)
    (getenv : string → option string) :
  ∃ r : Diagnostics,
    test_database D getenv = Ok r ∧
    (length (database r) ≤ longest_report)%nat.
Proof.
  unfold test_database, test_database_body, hasattr_name, getattr_name.
  unfold slice_upto. simpl (0 <=? _). simpl Z.to_nat. run.
  unfold longest_report.
  destruct (import_db D) as [[db|]|e]; simpl;
    [destruct (db_name db) as [|name|e]; simpl;
     [destruct (list_collection_names db) as [names|e]..|]| |];
    simpl; eexists; (split; [reflexivity|]); simpl;
    rewrite ?length_take; lia.
Qed.

(** The longest report is reached by a failing enumeration. *)
Example database_report_bound_reached :
  ∃ r, test_database failing_database (λ _, None) = Ok r ∧
       length (database r) = longest_report.
Proof. eexists. split; vm_compute; reflexivity. Qed.

(** ** The attachment inside its parent *)

(** X18: when a submission carries a file and the writer can be imported,
    the attachment is written to [file] before anything else, and the parent
    document refers to it under [attachment] by the identifier which that
    write returned (null if it failed), together with the file name and the
    byte count. *)
Theorem attachment_links_file_document (D : Database)
    (load_items : string → outcome (list LeadItem)) (s : Submission)
    (log log1 : list event) (coll : string) (doc : dict)
    (create_document : list event → string → dict → outcome (option string))
    (f : UploadFile) (bucket : string) :
  import_create_document D = Ok create_document →
  upload_of s = Some (f, bucket) →
  prepare D load_items s log = (Ok (coll, doc), log1) →
  log1 = log ++ [CreateDocument "file" (file_document f bucket)] ∧
  dict_get "attachment" doc =
    Some (VDict (file_summary
                   (match create_document log "file" (file_document f bucket) with
                    | Ok i => i
                    | Raise _ => None
                    end) f)).
Proof.
  intros Himport Hup Hprep.
  destruct (prepare_ok_log _ _ _ _ _ _ _ Hprep) as [Hlog1 _].
  unfold upload_events in Hlog1. rewrite Himport, Hup in Hlog1.
  split; [exact Hlog1|]. clear Hlog1. revert Hprep.
  destruct s as [q|q|p]; simpl in *; run.
  - destruct (truthy (lf_items_json q));
      [destruct (load_items (default "" (lf_items_json q)))|];
      simpl; try discriminate;
      rewrite attach_run;
      (destruct (lf_file q) as [f'|]; [|discriminate]);
      injection Hup as <- <-;
      rewrite save_uploaded_file_run, Himport;
      intros [= <- <-]; reflexivity.
  - rewrite attach_run.
    destruct (cf_file q) as [f'|]; [|discriminate]. injection Hup as <- <-.
    rewrite save_uploaded_file_run, Himport.
    destruct (cf_topic q); simpl; [|discriminate].
    intros [= <- <-]. reflexivity.
  - discriminate.
Qed.

Lemma attachment_links_file_document_witness :
  ∃ doc log1,
    prepare working_database no_items (LeadSubmission sample_lead) []
      = (Ok ("lead", doc), log1) ∧
    dict_get "attachment" doc =
      Some (VDict [("file_id", VStr "doc0"); ("filename", VStr "bom.csv");
                   ("size", VInt 5)]) ∧
    written_collections log1 = ["file"].
Proof.
  eexists. eexists. split; [reflexivity|].
  edestruct (attachment_links_file_document working_database no_items
               (LeadSubmission sample_lead) [])
    as [Hlog Hattach]; [reflexivity | reflexivity | reflexivity |].
  split; [exact Hattach | reflexivity].
Defined.
